(** * Request processing pipeline of the NestJS API starter kit

    A shallow embedding of the cross-cutting request components of the
    repository: the throttler guard and its tier configuration, the
    throttle decorators, the validation and date pipes, the logging
    interceptor and the global exception filter.

    JavaScript values are an inductive type; objects are association
    lists in property order; numbers are restricted to integers ([Z]);
    [undefined] is a value of its own.  What belongs to the JavaScript
    engine (rendering an instant as text, parsing a date, serialising to
    JSON, capturing a stack) is an interface, [JsRuntime]. *)

From Stdlib Require Import ZArith List String Ascii Bool Lia DecimalString.
Import ListNotations.

Local Open Scope Z_scope.
Local Open Scope string_scope.
Local Set Warnings "-register-all".

(* ================================================================== *)
(** ** JavaScript values *)

Inductive JsValue : Type :=
| JUndefined
| JNull
| JBool (b : bool)
| JNum (n : Z)
| JStr (s : string)
| JArr (items : list JsValue)
| JObj (props : list (string * JsValue)).

(** ToBoolean. *)
Definition truthy (v : JsValue) : bool :=
  match v with
  | JUndefined | JNull => false
  | JBool b => b
  | JNum n => negb (n =? 0)%Z
  | JStr s => negb (s =? "")
  | JArr _ | JObj _ => true
  end.

(** [a || b] on values. *)
Definition js_or (a b : JsValue) : JsValue := if truthy a then a else b.

(** [s || d] where [s] is a string or undefined. *)
Definition str_or (s : option string) (d : string) : string :=
  match s with
  | Some x => if x =? "" then d else x
  | None => d
  end.

(** [n || d] on numbers: zero is falsy. *)
Definition num_or (n d : Z) : Z := if (n =? 0)%Z then d else n.

(** [v ?? d] where [v] is a number or undefined. *)
Definition nullish (v : option Z) (d : Z) : Z :=
  match v with Some x => x | None => d end.

Fixpoint assoc {A : Type} (k : string) (l : list (string * A)) : option A :=
  match l with
  | [] => None
  | (k', a) :: rest => if k' =? k then Some a else assoc k rest
  end.

(** Property read [v.k]: undefined unless [v] is an object that has [k]. *)
Definition get_prop (v : JsValue) (k : string) : JsValue :=
  match v with
  | JObj ps => match assoc k ps with Some x => x | None => JUndefined end
  | _ => JUndefined
  end.

Definition is_undefined (v : JsValue) : bool :=
  match v with JUndefined => true | _ => false end.

(** The properties of an object that survive JSON serialisation:
    a property whose value is undefined is left out. *)
Definition json_fields (v : JsValue) : list (string * JsValue) :=
  match v with
  | JObj ps => filter (fun kv => negb (is_undefined (snd kv))) ps
  | _ => []
  end.

Definition has_field (k : string) (fs : list (string * JsValue)) : bool :=
  match assoc k fs with Some _ => true | None => false end.

Definition opt_str (s : option string) : JsValue :=
  match s with Some x => JStr x | None => JUndefined end.

(** The double-quote character, as a string. *)
Definition dquote : string := String (ascii_of_nat 34) EmptyString.

(** Template-literal rendering of an integer. *)
Definition decimal (z : Z) : string := NilZero.string_of_int (Z.to_int z).

(* ================================================================== *)
(** ** Errors and exceptions *)

(** An [Error] instance: name, message and the stack captured when it
    was constructed. *)
Record ErrorObj : Type := mkError {
  err_name : string;
  err_message : string;
  err_stack : option string
}.

(** An [HttpException]: an [Error] with a status and a response body
    ([getStatus()], [getResponse()]). *)
Record HttpException : Type := mkHttpException {
  http_error : ErrorObj;
  http_status : Z;
  http_response : JsValue
}.

(** What a [catch (exception: unknown)] can receive, by the [instanceof]
    tests the filter makes. *)
Inductive Thrown : Type :=
| ThrownHttp (e : HttpException)
| ThrownQueryFailed (e : ErrorObj)
| ThrownError (e : ErrorObj)
| ThrownOther (v : JsValue).

(** The engine and the clock. *)
Class JsRuntime : Type := {
  (** [new Date(ms).toISOString()] *)
  toISOString : Z -> string;
  (** [new Date(s).getTime()], [None] for an invalid date (NaN) *)
  Date_parse : string -> option Z;
  (** [JSON.stringify(v)], [None] when the result is undefined *)
  JSON_stringify : JsValue -> option string;
  (** the stack captured by [new C(...)] for the error class [C] *)
  captureStack : string -> option string;
  (** the TypeError raised by reading property [p] of undefined or null *)
  TypeError_read : string -> ErrorObj
}.

Module HttpStatus.
Definition BAD_REQUEST : Z := 400.
Definition TOO_MANY_REQUESTS : Z := 429.
Definition INTERNAL_SERVER_ERROR : Z := 500.
End HttpStatus.

(** The framework's exception constructors, as the repository calls
    them. *)
Module Framework.
Section WithRuntime.
Context {RT : JsRuntime}.

(** The message an [HttpException] gives itself: a string response is
    the message; an object response with a string [message] gives that;
    otherwise the class name in words. *)
Definition initMessage (words : string) (response : JsValue) : string :=
  match response with
  | JStr s => s
  | JObj _ => match get_prop response "message" with
              | JStr m => m
              | _ => words
              end
  | _ => words
  end.

(** [new HttpException(response, status)] *)
Definition new_HttpException (response : JsValue) (status : Z) : HttpException :=
  {| http_error := {| err_name := "HttpException";
                      err_message := initMessage "Http Exception" response;
                      err_stack := captureStack "HttpException" |};
     http_status := status;
     http_response := response |}.

(** The body a built-in exception builds from its first argument:
    nothing (a falsy argument) gives [{message: description, statusCode}],
    a string or an array becomes [{message, error, statusCode}], anything
    else is taken as it is. *)
Definition createBody (arg : JsValue) (description : string) (status : Z) : JsValue :=
  if negb (truthy arg)
  then JObj [("message", JStr description); ("statusCode", JNum status)]
  else match arg with
       | JStr _ | JArr _ =>
           JObj [("message", arg); ("error", JStr description); ("statusCode", JNum status)]
       | _ => arg
       end.

(** [new BadRequestException(arg)] *)
Definition new_BadRequestException (arg : JsValue) : HttpException :=
  let response := createBody arg "Bad Request" HttpStatus.BAD_REQUEST in
  {| http_error := {| err_name := "BadRequestException";
                      err_message := initMessage "Bad Request Exception" response;
                      err_stack := captureStack "BadRequestException" |};
     http_status := HttpStatus.BAD_REQUEST;
     http_response := response |}.
End WithRuntime.
End Framework.

(* ================================================================== *)
(** ** Requests and log records *)

Record Route : Type := { route_path : string }.

(** The fields of the Express request the pipeline reads. *)
Record Request : Type := {
  method : string;
  url : string;
  body : JsValue;
  query : list (string * JsValue);
  params : list (string * JsValue);
  headers : list (string * string);
  ip : option string;
  connection_remoteAddress : option string;
  route : option Route
}.

Inductive LogLevel : Type := LevelLog | LevelError.

(** One call of the logger: the message and its second argument (for a
    serialised object, the object that is serialised). *)
Record LogRecord : Type := {
  log_level : LogLevel;
  log_text : string;
  log_context : JsValue
}.

(* ================================================================== *)
(** ** src/common/filters/global-exception.filter.ts *)

Module GlobalExceptionFilter.
Section WithRuntime.
Context {RT : JsRuntime}.

(** What [catch] does: the logger calls it makes, the status it sets and
    the body it sends with [response.status(status).json(body)]. *)
Record Sent : Type := {
  logged : list LogRecord;
  sent_status : Z;
  sent_body : JsValue
}.

(** [exception instanceof Error ? exception.stack : undefined] *)
Definition stack_of (exception : Thrown) : JsValue :=
  match exception with
  | ThrownHttp e => opt_str (err_stack (http_error e))
  | ThrownQueryFailed e | ThrownError e => opt_str (err_stack e)
  | ThrownOther _ => JUndefined
  end.

(** The dispatch on the exception: status, message, error name and the
    branch's own log call. *)
Definition classify (exception : Thrown) : Z * JsValue * JsValue * list LogRecord :=
  match exception with
  | ThrownHttp e =>
      let errorResponse := http_response e in
      match errorResponse with
      | JObj _ | JArr _ =>
          (http_status e,
           js_or (get_prop errorResponse "message") (JStr (err_message (http_error e))),
           js_or (get_prop errorResponse "error") (JStr (err_name (http_error e))),
           [])
      | _ =>
          (http_status e, errorResponse, JStr (err_name (http_error e)), [])
      end
  | ThrownQueryFailed e =>
      (HttpStatus.BAD_REQUEST, JStr "Database query failed", JStr "QueryFailedError",
       [ {| log_level := LevelError;
            log_text := "Database error: " ++ err_message e;
            log_context := opt_str (err_stack e) |} ])
  | ThrownError e =>
      (HttpStatus.INTERNAL_SERVER_ERROR,
       JStr (str_or (Some (err_message e)) "Internal server error"),
       JStr (str_or (Some (err_name e)) "InternalServerError"),
       [ {| log_level := LevelError;
            log_text := "Unexpected error: " ++ err_message e;
            log_context := opt_str (err_stack e) |} ])
  | ThrownOther v =>
      (HttpStatus.INTERNAL_SERVER_ERROR, JStr "Internal server error", JStr "UnknownError",
       [ {| log_level := LevelError;
            log_text := "Unknown error occurred";
            log_context := v |} ])
  end.

(** [catch(exception, host)]: [NODE_ENV] is [process.env.NODE_ENV],
    [now] the clock when the envelope is built. *)
Definition catch (exception : Thrown) (request : Request)
           (NODE_ENV : option string) (now : Z) : Sent :=
  let '(status, message, error, branch_log) := classify exception in
  let spread :=
    match NODE_ENV with
    | Some env => if env =? "development"
                  then [("stack", stack_of exception)]
                  else []
    | None => []
    end in
  let errorResponse :=
    JObj ([ ("statusCode", JNum status);
            ("timestamp", JStr (toISOString now));
            ("path", JStr (url request));
            ("method", JStr (method request));
            ("error", error);
            ("message", message) ] ++ spread)%list in
  {| logged := (branch_log ++
                [ {| log_level := LevelError;
                     log_text := method request ++ " " ++ url request ++ " - " ++ decimal status;
                     log_context := errorResponse |} ])%list;
     sent_status := status;
     sent_body := errorResponse |}.

(** What the client reads: the status and the serialised fields. *)
Definition client_view (s : Sent) : Z * list (string * JsValue) :=
  (sent_status s, json_fields (sent_body s)).

(** The stack a failure carries, if any: that of an [Error] instance. *)
Definition carried_stack (exception : Thrown) : option string :=
  match exception with
  | ThrownHttp e => err_stack (http_error e)
  | ThrownQueryFailed e | ThrownError e => err_stack e
  | ThrownOther _ => None
  end.
End WithRuntime.

(** Two failures that differ only in what is internal to the server:
    the stack of an exception; everything a data-layer failure carries;
    the value of an unrecognised fault. *)
Inductive same_but_internals : Thrown -> Thrown -> Prop :=
| SBI_http : forall n m s s' st r,
    same_but_internals (ThrownHttp (mkHttpException (mkError n m s) st r))
                       (ThrownHttp (mkHttpException (mkError n m s') st r))
| SBI_error : forall n m s s',
    same_but_internals (ThrownError (mkError n m s)) (ThrownError (mkError n m s'))
| SBI_query : forall q q',
    same_but_internals (ThrownQueryFailed q) (ThrownQueryFailed q')
| SBI_other : forall v v',
    same_but_internals (ThrownOther v) (ThrownOther v').
End GlobalExceptionFilter.

(* ================================================================== *)
(** ** src/app.module.ts: the tiers of the rate limiter *)

(** [ConfigService.get<number>(key)]: a number, or undefined when the
    key is not configured.  The values are checked to be numbers when the
    process starts. *)
Definition ConfigService : Type := string -> option Z.

(** One entry of [throttlers]. *)
Record ThrottlerOptions : Type := {
  name : string;
  ttl : Z;
  limit : Z
}.

(** The double nearest to the integer [p], ties to the even
    significand: an integer below 2^53 in magnitude is a double; a larger
    one keeps 53 significant bits.  (No product of the program reaches
    2^1024: the configuration schema admits safe integers only.) *)
Definition round_to_double (p : Z) : Z :=
  let a := Z.abs p in
  if (a <? 2 ^ 53)%Z then p
  else
    let ulp := 2 ^ (Z.log2 a - 52) in
    let q := a / ulp in
    let r := a mod ulp in
    let half := ulp / 2 in
    let q' := if (r <? half)%Z then q
              else if (half <? r)%Z then q + 1
              else if Z.even q then q else q + 1 in
    Z.sgn p * (q' * ulp).

(** [x * k] on numbers that hold integers. *)
Definition js_mul (x k : Z) : Z := round_to_double (x * k).

Module AppModule.
Definition throttlers (configService : ConfigService) : list ThrottlerOptions :=
  [ {| name := "short";
       ttl := nullish (configService "throttle.ttl") 60000;
       limit := nullish (configService "throttle.limit") 100 |};
    {| name := "medium";
       ttl := js_mul (nullish (configService "throttle.ttl") 60000) 10;
       limit := js_mul (nullish (configService "throttle.limit") 100) 10 |};
    {| name := "long";
       ttl := js_mul (nullish (configService "throttle.ttl") 60000) 60;
       limit := js_mul (nullish (configService "throttle.limit") 100) 60 |} ].
End AppModule.

(* ================================================================== *)
(** ** src/common/decorators/throttle.decorator.ts *)

(** The value of one key of the argument of [Throttle]. *)
Record ThrottleOverride : Type := {
  o_ttl : Z;
  o_limit : Z
}.

(** The argument of [Throttle]: overrides keyed by throttler name.  It is
    the metadata the decorated handler carries. *)
Definition ThrottleMetadata : Type := list (string * ThrottleOverride).

Module ThrottleEndpoint.
Definition Strict : ThrottleMetadata := [("short", {| o_ttl := 60000; o_limit := 10 |})].
Definition Moderate : ThrottleMetadata := [("short", {| o_ttl := 60000; o_limit := 30 |})].
Definition Lenient : ThrottleMetadata := [("short", {| o_ttl := 60000; o_limit := 100 |})].
(** [ttl] is an optional parameter with default 60000. *)
Definition Custom (limit : Z) (ttl : option Z) : ThrottleMetadata :=
  [("default", {| o_ttl := nullish ttl 60000; o_limit := limit |})].
End ThrottleEndpoint.

(** The execution context of a guard: the request and the metadata of
    the matched handler. *)
Record ExecutionContext : Type := {
  ctx_request : Request;
  ctx_throttle : ThrottleMetadata
}.

(* ================================================================== *)
(** ** src/common/guards/throttler.guard.ts *)

Module ThrottlerGuard.
Section WithRuntime.
Context {RT : JsRuntime}.

Definition getTracker (request : Request) : string :=
  str_or (ip request) (str_or (connection_remoteAddress request) "unknown").

Definition generateKey (context : ExecutionContext) (tracker name : string) : string :=
  let request := ctx_request context in
  let route := str_or (option_map route_path (route request)) (url request) in
  name ++ ":" ++ tracker ++ ":" ++ route.

(** The exception [throwThrottlingException] throws. *)
Definition throwThrottlingException (context : ExecutionContext) (now : Z) : HttpException :=
  let request := ctx_request context in
  Framework.new_HttpException
    (JObj [ ("statusCode", JNum HttpStatus.TOO_MANY_REQUESTS);
            ("message", JStr "Too Many Requests");
            ("error", JStr "ThrottlerException");
            ("timestamp", JStr (toISOString now));
            ("path", JStr (url request));
            ("method", JStr (method request));
            ("details", JStr "Rate limit exceeded. Please try again later.") ])
    HttpStatus.TOO_MANY_REQUESTS.
End WithRuntime.
End ThrottlerGuard.

(* ================================================================== *)
(** ** The base guard and its counters *)

(** Modelled from the spec: the counter record of the rate limiter (the
    storage of the throttler library is not in the repository): one
    record per bucket key, with the count of the current window, the
    start of the window and its length. *)
Record RateLimitRecord : Type := {
  key : string;
  count : Z;
  windowStart : Z;
  rec_ttl : Z
}.

Definition Store : Type := list RateLimitRecord.

(** The base class of [ThrottlerGuard], the guard of the throttler
    library, which calls the three methods the repository overrides.  It
    is not part of the repository: its loop over the tiers and its
    counters follow the spec, its reading of the decorator's metadata
    follows the library. *)
Module NestThrottlerGuard.
Section WithRuntime.
Context {RT : JsRuntime}.

Definition find_record (k : string) (st : Store) : option RateLimitRecord :=
  find (fun r => key r =? k) st.

Definition put_record (r : RateLimitRecord) (st : Store) : Store :=
  r :: filter (fun r' => negb (key r' =? key r)) st.

(** Modelled from the spec: look up or create the record; when
    [now - windowStart > ttl] start a new window with count 0; then
    increment.  Returns the store and the count after the increment. *)
Definition increment (st : Store) (k : string) (ttl now : Z) : Store * Z :=
  let fresh := {| key := k; count := 0; windowStart := now; rec_ttl := ttl |} in
  let r := match find_record k st with
           | Some r => if (now - windowStart r >? rec_ttl r)%Z then fresh else r
           | None => fresh
           end in
  let r' := {| key := k; count := count r + 1;
               windowStart := windowStart r; rec_ttl := rec_ttl r |} in
  (put_record r' st, count r').

(** The limit and window of a configured tier on a handler: the base
    guard reads the handler's metadata under the tier's own name
    ([routeOrClassLimit || throttler.limit], the same for [ttl]); a key
    of the decorator that names no configured tier is never read. *)
Definition resolve (meta : ThrottleMetadata) (t : ThrottlerOptions) : ThrottlerOptions :=
  match assoc (name t) meta with
  | Some o => {| name := name t; ttl := num_or (o_ttl o) (ttl t); limit := num_or (o_limit o) (limit t) |}
  | None => t
  end.

(** Modelled from the spec: the tiers are evaluated in their configured
    order, each on its own bucket key; a tier rejects when the count
    after the increment exceeds its limit, and the first tier to reject
    stops the evaluation by throwing. *)
Fixpoint handleTiers (context : ExecutionContext) (now : Z)
         (tiers : list ThrottlerOptions) (st : Store) : Store * option HttpException :=
  match tiers with
  | [] => (st, None)
  | t :: rest =>
      let k := ThrottlerGuard.generateKey context
                 (ThrottlerGuard.getTracker (ctx_request context)) (name t) in
      let '(st', hits) := increment st k (ttl t) now in
      if (hits >? limit t)%Z
      then (st', Some (ThrottlerGuard.throwThrottlingException context now))
      else handleTiers context now rest st'
  end.

(** [canActivate]: [None] admits the request, [Some e] is the exception
    thrown. *)
Definition canActivate (configService : ConfigService) (context : ExecutionContext)
           (now : Z) (st : Store) : Store * option HttpException :=
  handleTiers context now
    (map (resolve (ctx_throttle context)) (AppModule.throttlers configService)) st.

(** A tier taken alone on the store [st]. *)
Definition tier_admits (context : ExecutionContext) (now : Z) (st : Store)
           (t : ThrottlerOptions) : bool :=
  let k := ThrottlerGuard.generateKey context
             (ThrottlerGuard.getTracker (ctx_request context)) (name t) in
  (snd (increment st k (ttl t) now) <=? limit t)%Z.

(** The outcomes of a sequence of requests of one context, sent at the
    given instants, from the store [st]: [true] for admitted. *)
Fixpoint run (configService : ConfigService) (context : ExecutionContext)
         (instants : list Z) (st : Store) : list bool :=
  match instants with
  | [] => []
  | now :: rest =>
      let '(st', r) := canActivate configService context now st in
      (match r with None => true | Some _ => false end) :: run configService context rest st'
  end.

(** Follows the spec's words, for comparison with [canActivate]: a
    handler that declares an override is checked against the declared
    tiers alone; the configured tiers apply only to a handler that
    declares none. *)
Definition canActivate_superseding (configService : ConfigService)
           (context : ExecutionContext) (now : Z) (st : Store) : Store * option HttpException :=
  match ctx_throttle context with
  | [] => handleTiers context now (AppModule.throttlers configService) st
  | declared =>
      handleTiers context now
        (map (fun d => {| name := fst d; ttl := o_ttl (snd d); limit := o_limit (snd d) |})
             declared) st
  end.

Fixpoint run_superseding (configService : ConfigService) (context : ExecutionContext)
         (instants : list Z) (st : Store) : list bool :=
  match instants with
  | [] => []
  | now :: rest =>
      let '(st', r) := canActivate_superseding configService context now st in
      (match r with None => true | Some _ => false end)
        :: run_superseding configService context rest st'
  end.
End WithRuntime.
End NestThrottlerGuard.

(* ================================================================== *)
(** ** src/common/pipes/validation.pipe.ts *)

(** A [ValidationError] of class-validator: the property, its rejected
    value, the violated constraints (name and message, in the order
    [Object.values] gives them) and the errors of nested objects. *)
Inductive ValidationError : Type :=
  mkValidationError (property : string) (value : JsValue)
                    (constraints : option (list (string * string)))
                    (children : option (list ValidationError)).

Module ValidationPipe.
Section WithRuntime.
Context {RT : JsRuntime}.

(** One entry pushed on [errors]. *)
Record FieldError : Type := {
  field : string;
  message : string;
  value : JsValue
}.

Definition currentPath (parentPath property : string) : string :=
  if parentPath =? "" then property else parentPath ++ "." ++ property.

(** [extractErrors(error, parentPath)]: the entries it pushes, in
    order. *)
Fixpoint extractErrors (error : ValidationError) (parentPath : string) : list FieldError :=
  match error with
  | mkValidationError property v constraints children =>
      let path := currentPath parentPath property in
      ((match constraints with
        | Some cs => map (fun c => {| field := path; message := snd c; value := v |}) cs
        | None => []
        end)
       ++
       (match children with
        | Some cs => flat_map (fun child => extractErrors child path) cs
        | None => []
        end))%list
  end.

Definition customFlattenValidationErrors (validationErrors : list ValidationError)
  : list FieldError :=
  flat_map (fun error => extractErrors error "") validationErrors.

(** The number of violated constraints in an error and below it. *)
Fixpoint violations (error : ValidationError) : nat :=
  match error with
  | mkValidationError _ _ constraints children =>
      (match constraints with Some cs => List.length cs | None => 0 end
       + match children with Some cs => list_sum (map violations cs) | None => 0 end)%nat
  end.

(** The violated constraints of an error and below it, each with the
    property names from the root to it, its message and the rejected
    value, parent before children and children in order. *)
Fixpoint leaves (above : list string) (error : ValidationError)
  : list (list string * string * JsValue) :=
  match error with
  | mkValidationError property v constraints children =>
      let here := (above ++ [property])%list in
      ((match constraints with
        | Some cs => map (fun c => (here, snd c, v)) cs
        | None => []
        end)
       ++
       (match children with
        | Some cs => flat_map (leaves here) cs
        | None => []
        end))%list
  end.

(** Every property name in an error and below it is non-empty. *)
Fixpoint named (error : ValidationError) : Prop :=
  match error with
  | mkValidationError property _ _ children =>
      property <> "" /\
      match children with
      | Some cs => (fix all (l : list ValidationError) : Prop :=
                      match l with
                      | [] => True
                      | c :: r => named c /\ all r
                      end) cs
      | None => True
      end
  end.

(** A path of property names, joined with dots. *)
Definition dotted (names : list string) : string := String.concat "." names.

Definition to_js (e : FieldError) : JsValue :=
  JObj [("field", JStr (field e)); ("message", JStr (message e)); ("value", value e)].

(** [exceptionFactory(validationErrors)] *)
Definition exceptionFactory (validationErrors : list ValidationError) : HttpException :=
  let errors := customFlattenValidationErrors validationErrors in
  Framework.new_BadRequestException
    (JObj [("message", JStr "Validation failed"); ("errors", JArr (map to_js errors))]).
End WithRuntime.
End ValidationPipe.

(* ================================================================== *)
(** ** src/common/pipes/parse-date.pipe.ts *)

(** What a pipe does with a value: return, or throw. *)
Inductive Outcome (A : Type) : Type :=
| Returned (a : A)
| Raised (e : HttpException).
Arguments Returned {A} a.
Arguments Raised {A} e.

Module ParseDatePipe.
Section WithRuntime.
Context {RT : JsRuntime}.

Record Options : Type := { optional : option bool }.

(** The pipe: its constructor argument, [options?]. *)
Record Pipe : Type := { options : option Options }.

(** [ArgumentMetadata]: [data] is the name of the parameter. *)
Record ArgumentMetadata : Type := { data : option string }.

(** [this.options?.optional] as a condition. *)
Definition is_optional (pipe : Pipe) : bool :=
  match options pipe with
  | Some o => match optional o with Some b => b | None => false end
  | None => false
  end.

(** [!value]: undefined or the empty string. *)
Definition is_empty (value : option string) : bool :=
  match value with
  | Some s => s =? ""
  | None => true
  end.

Definition expected_message (metadata : ArgumentMetadata) : string :=
  "Validation failed for " ++ str_or (data metadata) "parameter"
    ++ ". Expected a valid date string.".

Definition invalid_message (metadata : ArgumentMetadata) (value : string) : string :=
  "Validation failed for " ++ str_or (data metadata) "parameter"
    ++ ". " ++ dquote ++ value ++ dquote ++ " is not a valid date.".

(** [transform(value, metadata)]: the date is its time value;
    [Returned None] is [undefined]. *)
Definition transform (pipe : Pipe) (value : option string) (metadata : ArgumentMetadata)
  : Outcome (option Z) :=
  if is_empty value then
    if is_optional pipe then Returned None
    else Raised (Framework.new_BadRequestException (JStr (expected_message metadata)))
  else
    let v := match value with Some s => s | None => "" end in
    match Date_parse v with
    | None => Raised (Framework.new_BadRequestException (JStr (invalid_message metadata v)))
    | Some date => Returned (Some date)
    end.

(** [new ParseDatePipe()] and [new ParseDatePipe(options)] *)
Definition ParseDatePipe_default : Pipe := {| options := None |}.

(** [new ParseOptionalDatePipe()] *)
Definition ParseOptionalDatePipe : Pipe :=
  {| options := Some {| optional := Some true |} |}.
End WithRuntime.
End ParseDatePipe.

(* ================================================================== *)
(** ** src/common/interceptors/logging.interceptor.ts *)

(** What a callback of the interceptor reads when it runs: the clock
    ([Date.now()]) and [response.statusCode]. *)
Record Tick : Type := {
  tick_now : Z;
  tick_statusCode : option Z
}.

(** How a stream ends. *)
Inductive Terminal : Type :=
| Complete
| Failed (e : Thrown).

(** The stream [next.handle()] returns: the values it emits, each with
    the instant of its emission, and its end. *)
Record Observable : Type := {
  emissions : list (Tick * JsValue);
  terminal : Tick * Terminal
}.

Module LoggingInterceptor.
Section WithRuntime.
Context {RT : JsRuntime}.

Definition client_ip (request : Request) : string :=
  str_or (ip request) (str_or (connection_remoteAddress request) "").

Definition userAgent (request : Request) : string :=
  str_or (assoc "user-agent" (headers request)) "".

(** [Object.keys(o).length ? o : undefined] *)
Definition non_empty (o : list (string * JsValue)) : JsValue :=
  match o with [] => JUndefined | _ => JObj o end.

(** The record logged before the handler is called. *)
Definition start_record (request : Request) (now : Z) : LogRecord :=
  {| log_level := LevelLog;
     log_text := "📨 " ++ method request ++ " " ++ url request ++ " - "
                   ++ client_ip request ++ " - " ++ userAgent request;
     log_context :=
       JObj [ ("timestamp", JStr (toISOString now));
              ("method", JStr (method request));
              ("url", JStr (url request));
              ("ip", JStr (client_ip request));
              ("userAgent", JStr (userAgent request));
              ("body", if method request =? "GET" then JUndefined else body request);
              ("query", non_empty (query request));
              ("params", non_empty (params request)) ] |}.

(** [response.statusCode] as a value and in a template literal. *)
Definition status_js (statusCode : option Z) : JsValue :=
  match statusCode with Some c => JNum c | None => JUndefined end.

Definition status_text (statusCode : option Z) : string :=
  match statusCode with Some c => decimal c | None => "undefined" end.

(** [response.statusCode || 500] *)
Definition status_or_500 (statusCode : option Z) : Z :=
  match statusCode with Some c => num_or c 500 | None => 500 end.

(** The [next] callback of [tap]: the record it logs, or the TypeError
    of [JSON.stringify(data).length] when the serialisation is
    undefined. *)
Definition on_next (request : Request) (now : Z) (tk : Tick) (data : JsValue)
  : LogRecord + Thrown :=
  let responseTime := tick_now tk - now in
  match JSON_stringify data with
  | None => inr (ThrownError (TypeError_read "length"))
  | Some text =>
      inl {| log_level := LevelLog;
             log_text := "📤 " ++ method request ++ " " ++ url request ++ " - "
                           ++ status_text (tick_statusCode tk) ++ " - "
                           ++ decimal responseTime ++ "ms";
             log_context :=
               JObj [ ("timestamp", JStr (toISOString (tick_now tk)));
                      ("method", JStr (method request));
                      ("url", JStr (url request));
                      ("statusCode", status_js (tick_statusCode tk));
                      ("responseTime", JNum responseTime);
                      ("dataSize", JNum (Z.of_nat (String.length text))) ] |}
  end.

(** [error.message]: reading it off undefined or null is a TypeError. *)
Definition message_of (error : Thrown) : option JsValue :=
  match error with
  | ThrownHttp e => Some (JStr (err_message (http_error e)))
  | ThrownQueryFailed e | ThrownError e => Some (JStr (err_message e))
  | ThrownOther JUndefined | ThrownOther JNull => None
  | ThrownOther v => Some (get_prop v "message")
  end.

(** The [error] callback of [tap]. *)
Definition on_error (request : Request) (now : Z) (tk : Tick) (error : Thrown)
  : LogRecord + Thrown :=
  let responseTime := tick_now tk - now in
  let statusCode := status_or_500 (tick_statusCode tk) in
  match message_of error with
  | None => inr (ThrownError (TypeError_read "message"))
  | Some msg =>
      inl {| log_level := LevelError;
             log_text := "❌ " ++ method request ++ " " ++ url request ++ " - "
                           ++ decimal statusCode ++ " - " ++ decimal responseTime ++ "ms";
             log_context :=
               JObj [ ("timestamp", JStr (toISOString (tick_now tk)));
                      ("method", JStr (method request));
                      ("url", JStr (url request));
                      ("statusCode", JNum statusCode);
                      ("responseTime", JNum responseTime);
                      ("error", msg) ] |}
  end.

(** [source.pipe(tap({next, error}))]: each value goes through [next]
    and is passed on; an error goes through [error] and is passed on; a
    callback that throws ends the stream with what it threw.  Returns
    the records logged and the stream the subscriber sees. *)
Fixpoint tap (onNext : Tick -> JsValue -> LogRecord + Thrown)
         (onError : Tick -> Thrown -> LogRecord + Thrown)
         (values : list (Tick * JsValue)) (ending : Tick * Terminal)
  : list LogRecord * Observable :=
  match values with
  | [] =>
      match ending with
      | (tk, Complete) => ([], {| emissions := []; terminal := (tk, Complete) |})
      | (tk, Failed e) =>
          match onError tk e with
          | inl r => ([r], {| emissions := []; terminal := (tk, Failed e) |})
          | inr e' => ([], {| emissions := []; terminal := (tk, Failed e') |})
          end
      end
  | (tk, v) :: rest =>
      match onNext tk v with
      | inl r =>
          let '(logs, out) := tap onNext onError rest ending in
          (r :: logs, {| emissions := (tk, v) :: emissions out; terminal := terminal out |})
      | inr e' => ([], {| emissions := []; terminal := (tk, Failed e') |})
      end
  end.

(** [intercept(context, next)]: [handled] is [next.handle()], [now] the
    clock on entry. *)
Definition intercept (request : Request) (now : Z) (handled : Observable)
  : list LogRecord * Observable :=
  let '(logs, out) :=
    tap (on_next request now) (on_error request now)
        (emissions handled) (terminal handled) in
  (start_record request now :: logs, out).

(** A start record carries the user agent, an end record the response
    time. *)
Definition is_start (r : LogRecord) : bool :=
  match log_context r with
  | JObj ps => has_field "userAgent" ps
  | _ => false
  end.

Definition is_end (r : LogRecord) : bool :=
  match log_context r with
  | JObj ps => has_field "responseTime" ps
  | _ => false
  end.

Definition count_records (p : LogRecord -> bool) (logs : list LogRecord) : nat :=
  List.length (filter p logs).
End WithRuntime.
End LoggingInterceptor.

(* ================================================================== *)
(** ** The order of the stages *)

(** The request lifecycle of the framework, in which [main.ts] and
    [app.module.ts] register the components: the global guard runs first
    and, when it throws, the exception goes to the exception filter
    without entering any interceptor; otherwise the interceptor wraps the
    pipes and the handler ([next.handle()]), and what the resulting
    stream fails with goes to the exception filter. *)
Module Lifecycle.
Section WithRuntime.
Context {RT : JsRuntime}.

Record Served : Type := {
  interceptor_log : list LogRecord;
  stream : option Observable;
  failure_sent : option GlobalExceptionFilter.Sent
}.

Definition serve (guard : option HttpException) (request : Request)
           (handled : Observable) (NODE_ENV : option string) (now : Z) : Served :=
  match guard with
  | Some e =>
      {| interceptor_log := [];
         stream := None;
         failure_sent :=
           Some (GlobalExceptionFilter.catch (ThrownHttp e) request NODE_ENV now) |}
  | None =>
      let '(logs, out) := LoggingInterceptor.intercept request now handled in
      {| interceptor_log := logs;
         stream := Some out;
         failure_sent :=
           match terminal out with
           | (tk, Failed e) =>
               Some (GlobalExceptionFilter.catch e request NODE_ENV (tick_now tk))
           | (_, Complete) => None
           end |}
  end.
End WithRuntime.
End Lifecycle.

(* ================================================================== *)
(** ** Fixtures for the examples *)

Module Fixtures.
(** A stand-in for the engine: it knows one date, serialises every
    defined value to the same short text and captures no stack. *)
Definition runtime : JsRuntime :=
  {| toISOString := fun ms => "T" ++ decimal ms;
     Date_parse := fun s => if s =? "2024-01-01T00:00:00Z" then Some 1704067200000 else None;
     JSON_stringify := fun v => match v with JUndefined => None | _ => Some "{}" end;
     captureStack := fun _ => None;
     TypeError_read := fun p =>
       {| err_name := "TypeError";
          err_message := "Cannot read properties of undefined (reading '" ++ p ++ "')";
          err_stack := None |} |}.

(** [GET /api/v1/health] from 10.0.0.7, matched to the route
    [/api/v1/health]. *)
Definition health_request : Request :=
  {| method := "GET";
     url := "/api/v1/health?verbose=1";
     body := JUndefined;
     query := [("verbose", JStr "1")];
     params := [];
     headers := [("user-agent", "curl/8.0")];
     ip := Some "10.0.0.7";
     connection_remoteAddress := Some "10.0.0.7";
     route := Some {| route_path := "/api/v1/health" |} |}.

(** The handler of [health_request] decorated with
    [ThrottleEndpoint.Lenient()]. *)
Definition lenient_context : ExecutionContext :=
  {| ctx_request := health_request; ctx_throttle := ThrottleEndpoint.Lenient |}.

(** The same request on a handler with no throttle decorator. *)
Definition plain_context : ExecutionContext :=
  {| ctx_request := health_request; ctx_throttle := [] |}.

(** [THROTTLE_LIMIT=1], [THROTTLE_TTL] left at 60000. *)
Definition config_limit_1 : ConfigService :=
  fun k => if k =? "throttle.limit" then Some 1
           else if k =? "throttle.ttl" then Some 60000 else None.

(** [THROTTLE_TTL=300000], the five-minute window of the environment
    guide. *)
Definition config_ttl_5min : ConfigService :=
  fun k => if k =? "throttle.limit" then Some 100
           else if k =? "throttle.ttl" then Some 300000 else None.

(** [THROTTLE_TTL=9007199254740991], the largest safe integer. *)
Definition config_ttl_max_safe : ConfigService :=
  fun k => if k =? "throttle.limit" then Some 3
           else if k =? "throttle.ttl" then Some 9007199254740991 else None.

(** Nothing configured: the defaults apply. *)
Definition config_default : ConfigService := fun _ => None.

(** The counters after one request of [plain_context] at instant 0
    under [config_limit_1]. *)
Definition store_after_one : Store :=
  fst (NestThrottlerGuard.canActivate (RT := runtime) config_limit_1 plain_context 0 []).

(** Eleven requests, one per second. *)
Definition eleven_instants : list Z :=
  [0; 1000; 2000; 3000; 4000; 5000; 6000; 7000; 8000; 9000; 10000].

(** [email] fails [isEmail]. *)
Definition bad_email : ValidationError :=
  mkValidationError "email" (JStr "invalid-email")
    (Some [("isEmail", "email must be an email")]) None.

(** [address.zip] fails two constraints and [name] one. *)
Definition nested_errors : list ValidationError :=
  [ mkValidationError "name" (JStr "") (Some [("isNotEmpty", "name should not be empty")]) None;
    mkValidationError "address" (JObj [("zip", JNum 1)]) None
      (Some [ mkValidationError "zip" (JNum 1)
                (Some [("isString", "zip must be a string");
                       ("length", "zip must be longer than or equal to 5 characters")])
                (Some []) ]) ].

(** A handler that returns one value after 12 ms with status 200. *)
Definition handler_returns (data : JsValue) : Observable :=
  {| emissions := [ ({| tick_now := 12; tick_statusCode := Some 200 |}, data) ];
     terminal := ({| tick_now := 12; tick_statusCode := Some 200 |}, Complete) |}.

(** A pipe or handler that throws after 5 ms, before any value. *)
Definition handler_throws (e : Thrown) (statusCode : option Z) : Observable :=
  {| emissions := [];
     terminal := ({| tick_now := 5; tick_statusCode := statusCode |}, Failed e) |}.
End Fixtures.

(* ================================================================== *)
(** ** Members of an object literal *)

(** The members every object literal inherits from [Object.prototype];
    each of them is a function or an object, hence truthy and not
    nullish. *)
Definition object_prototype_members : list string :=
  [ "constructor"; "hasOwnProperty"; "isPrototypeOf"; "propertyIsEnumerable";
    "toLocaleString"; "toString"; "valueOf"; "__proto__";
    "__defineGetter__"; "__defineSetter__"; "__lookupGetter__"; "__lookupSetter__" ].

(** What [literal[k]] evaluates to, for a literal with the own properties
    [own]: an own value, an inherited member, or undefined. *)
Inductive Member (A : Type) : Type :=
| Own (a : A)
| Inherited (k : string)
| Missing.
Arguments Own {A} a.
Arguments Inherited {A} k.
Arguments Missing {A}.

Definition member {A : Type} (own : list (string * A)) (k : string) : Member A :=
  match assoc k own with
  | Some a => Own a
  | None => if existsb (String.eqb k) object_prototype_members then Inherited k else Missing
  end.

(** The result of [literal[k] || d] or [literal[k] ?? d] when the own
    values are truthy: a value of the expected type, or the inherited
    member that was found instead. *)
Inductive Resolved (A : Type) : Type :=
| Value (a : A)
| InheritedValue (k : string).
Arguments Value {A} a.
Arguments InheritedValue {A} k.

Definition member_or {A : Type} (own : list (string * A)) (k : string) (d : A) : Resolved A :=
  match member own k with
  | Own a => Value a
  | Inherited k' => InheritedValue k'
  | Missing => Value d
  end.

(** [s.includes(sub)] *)
Fixpoint includes (sub s : string) : bool :=
  if String.prefix sub s then true
  else match s with
       | EmptyString => false
       | String _ rest => includes sub rest
       end.

(** The line feed, as a string. *)
Definition newline : string := String (ascii_of_nat 10) EmptyString.

(* ================================================================== *)
(** ** scripts/detect-pm.js *)

Module DetectPm.

(** What the script reads of its surroundings: which files exist in the
    working directory, the user agent of the package manager that runs
    it, and which commands answer [--version]. *)
Record Environment : Type := {
  existsSync : string -> bool;
  npm_config_user_agent : option string;
  checkCommand : string -> bool
}.

Record Detected : Type := {
  pm : string;
  command : string
}.

Definition bun : Detected := {| pm := "bun"; command := "bun" |}.
Definition pnpm : Detected := {| pm := "pnpm"; command := "pnpm" |}.
Definition yarn : Detected := {| pm := "yarn"; command := "yarn" |}.
Definition npm : Detected := {| pm := "npm"; command := "npm" |}.

Definition lockFiles : list (string * Detected) :=
  [ ("bun.lockb", bun);
    ("pnpm-lock.yaml", pnpm);
    ("yarn.lock", yarn);
    ("package-lock.json", npm) ].

(** The loop over the lock files: the first that exists decides. *)
Fixpoint firstLockFile (env : Environment) (files : list (string * Detected))
  : option Detected :=
  match files with
  | [] => None
  | (file, detected) :: rest =>
      if existsSync env file then Some detected else firstLockFile env rest
  end.

Definition detectPackageManager (env : Environment) : Detected :=
  match firstLockFile env lockFiles with
  | Some detected => detected
  | None =>
      let userAgent := str_or (npm_config_user_agent env) "" in
      if includes "bun" userAgent then bun
      else if includes "pnpm" userAgent then pnpm
      else if includes "yarn" userAgent then yarn
      else if includes "npm" userAgent then npm
      else if checkCommand env "bun" then bun
      else if checkCommand env "pnpm" then pnpm
      else if checkCommand env "yarn" then yarn
      else npm
  end.

Definition getRunCommand (pm script : string) : Resolved string :=
  member_or [ ("npm", "npm run " ++ script);
              ("yarn", "yarn " ++ script);
              ("pnpm", "pnpm run " ++ script);
              ("bun", "bun run " ++ script) ]
            pm ("npm run " ++ script).

Definition getInstallCommand (pm : string) : Resolved string :=
  member_or [ ("npm", "npm install");
              ("yarn", "yarn install");
              ("pnpm", "pnpm install");
              ("bun", "bun install") ]
            pm "npm install".

(** [JSON.stringify(detected, null, 2)] *)
Definition pretty (detected : Detected) : string :=
  "{" ++ newline
  ++ "  " ++ dquote ++ "pm" ++ dquote ++ ": " ++ dquote ++ pm detected ++ dquote ++ "," ++ newline
  ++ "  " ++ dquote ++ "command" ++ dquote ++ ": " ++ dquote ++ command detected ++ dquote ++ newline
  ++ "}".

Definition printed (c : Resolved string) : option string :=
  match c with
  | Value text => Some text
  | InheritedValue _ => None
  end.

(** The command line: what [console.log] prints for the arguments
    [args] ([process.argv.slice(2)]); [None] when what it is given is not
    a string. *)
Definition cli (args : list string) (env : Environment) : option string :=
  let detected := detectPackageManager env in
  let has flag := existsb (String.eqb flag) args in
  if has "--install" then printed (getInstallCommand (pm detected))
  else if has "--run" && negb (str_or (nth_error args 1) "" =? "")
  then printed (getRunCommand (pm detected) (str_or (nth_error args 1) ""))
  else if has "--pm" then Some (pm detected)
  else if has "--command" then Some (command detected)
  else Some (pretty detected).
End DetectPm.

(* ================================================================== *)
(** ** src/common/logger/nestjs-logger.config.ts *)

Module CustomNestLogger.

Definition levels : list (string * list string) :=
  [ ("error", ["error"]);
    ("warn", ["error"; "warn"]);
    ("log", ["error"; "warn"; "log"]);
    ("debug", ["error"; "warn"; "log"; "debug"]);
    ("verbose", ["error"; "warn"; "log"; "debug"; "verbose"]) ].

Definition getLogLevels (level : string) : Resolved (list string) :=
  member_or levels level ["error"; "warn"; "log"].

(** The options the constructor passes to [ConsoleLogger]. *)
Record Options : Type := {
  json : bool;
  colors : bool;
  logLevels : Resolved (list string)
}.

Definition is_string (v : option string) (s : string) : bool :=
  match v with Some x => x =? s | None => false end.

(** [configService.get<string>(key)] is a string or undefined. *)
Definition options (get : string -> option string) : Options :=
  {| json := is_string (get "logging.format") "json";
     colors := negb (is_string (get "NODE_ENV") "production");
     logLevels := getLogLevels (str_or (get "logging.level") "log") |}.
End CustomNestLogger.

(* ================================================================== *)
(** ** src/database/database.module.ts and src/database/data-source.ts *)

Module Database.

(** [v ?? d] on values. *)
Definition js_nullish (v d : JsValue) : JsValue :=
  match v with
  | JUndefined | JNull => d
  | _ => v
  end.

(** [v === s] for a string literal [s]. *)
Definition strict_eq (v : JsValue) (s : string) : bool :=
  match v with
  | JStr x => x =? s
  | _ => false
  end.

Record Ssl : Type := { rejectUnauthorized : bool }.

(** The options of the factory of [DatabaseModule]. *)
Record ModuleOptions : Type := {
  m_type : string;
  m_host : JsValue;
  m_port : JsValue;
  m_username : JsValue;
  m_password : JsValue;
  m_database : JsValue;
  m_entities : list string;
  m_synchronize : bool;
  m_logging : bool;
  m_ssl : option Ssl;
  m_retryAttempts : Z;
  m_retryDelay : Z;
  m_autoLoadEntities : bool
}.

(** [useFactory(configService)]: [get] is [configService.get], [dirname]
    is [__dirname]. *)
Definition useFactory (get : string -> JsValue) (dirname : string) : ModuleOptions :=
  {| m_type := "postgres";
     m_host := js_nullish (get "DB_HOST") (JStr "localhost");
     m_port := js_nullish (get "DB_PORT") (JNum 5432);
     m_username := js_nullish (get "DB_USERNAME") (JStr "postgres");
     m_password := js_nullish (get "DB_PASSWORD") (JStr "postgres");
     m_database := js_nullish (get "DB_NAME") (JStr "nestjs_starter");
     m_entities := [dirname ++ "/../**/*.entity{.ts,.js}"];
     m_synchronize := strict_eq (get "NODE_ENV") "development";
     m_logging := strict_eq (get "NODE_ENV") "development";
     m_ssl := if strict_eq (get "NODE_ENV") "production"
              then Some {| rejectUnauthorized := false |}
              else None;
     m_retryAttempts := 3;
     m_retryDelay := 3000;
     m_autoLoadEntities := true |}.

(** The options of [AppDataSource]. *)
Record DataSourceOptions : Type := {
  d_type : string;
  d_host : JsValue;
  d_port : JsValue;
  d_username : JsValue;
  d_password : JsValue;
  d_database : JsValue;
  d_entities : list string;
  d_migrations : list string;
  d_synchronize : bool;
  d_logging : bool;
  d_ssl : option Ssl;
  d_extra_charset : string
}.

Definition AppDataSource (get : string -> JsValue) : DataSourceOptions :=
  {| d_type := "postgres";
     d_host := js_or (get "DB_HOST") (JStr "localhost");
     d_port := js_or (get "DB_PORT") (JNum 5432);
     d_username := js_or (get "DB_USERNAME") (JStr "postgres");
     d_password := js_or (get "DB_PASSWORD") (JStr "postgres");
     d_database := js_or (get "DB_NAME") (JStr "nestjs_starter");
     d_entities := ["src/**/*.entity.{ts,js}"];
     d_migrations := ["src/database/migrations/*.{ts,js}"];
     d_synchronize := strict_eq (get "NODE_ENV") "development";
     d_logging := strict_eq (get "NODE_ENV") "development";
     d_ssl := if strict_eq (get "NODE_ENV") "production"
              then Some {| rejectUnauthorized := false |}
              else None;
     d_extra_charset := "utf8mb4_unicode_ci" |}.
End Database.

(* ================================================================== *)
(** ** src/common/examples/date-example.controller.ts *)

Module DateExampleController.
Section WithRuntime.
Context {RT : JsRuntime}.

(** What a handler does: reply with a value, or throw. *)
Inductive HandlerOutcome : Type :=
| Replied (v : JsValue)
| Threw (e : Thrown).

(** [Math.ceil(a / b)] for integers [a] and [b > 0], taken on the exact
    quotient; negative zero is zero. *)
Definition ceil_div (a b : Z) : Z := - ((- a) / b).

Definition day : Z := 1000 * 60 * 60 * 24.

(** [getDateRange(startDate, endDate)]: a date is its time value,
    [None] is undefined; [now] is the clock.  Reading [toISOString] off
    an undefined [startDate] is a TypeError. *)
Definition getDateRange (startDate endDate : option Z) (now : Z) : HandlerOutcome :=
  match startDate with
  | None => Threw (ThrownError (TypeError_read "toISOString"))
  | Some s =>
      let result :=
        JObj [ ("startDate", JStr (toISOString s));
               ("endDate", match endDate with
                           | Some e => js_or (JStr (toISOString e)) JNull
                           | None => JNull
                           end);
               ("daysBetween", match endDate with
                               | Some e => JNum (ceil_div (e - s) day)
                               | None => JNull
                               end);
               ("timestamp", JStr (toISOString now)) ] in
      Replied (JObj [ ("message", JStr "Date range processed successfully");
                      ("data", result) ])
  end.

End WithRuntime.
End DateExampleController.

(* ================================================================== *)
(** ** More fixtures *)

Module Examples.
(** A fresh checkout with a yarn lock file, run through pnpm on a machine
    that has bun installed. *)
Definition yarn_checkout : DetectPm.Environment :=
  {| DetectPm.existsSync := fun file => file =? "yarn.lock";
     DetectPm.npm_config_user_agent := Some "pnpm/8.6.0 npm/? node/v20.0.0 linux x64";
     DetectPm.checkCommand := fun cmd => cmd =? "bun" |}.

(** No lock file, run through pnpm. *)
Definition pnpm_agent : DetectPm.Environment :=
  {| DetectPm.existsSync := fun _ => false;
     DetectPm.npm_config_user_agent := Some "pnpm/8.6.0 npm/? node/v20.0.0 linux x64";
     DetectPm.checkCommand := fun _ => false |}.

(** A POST with a body. *)
Definition post_request : Request :=
  {| method := "POST";
     url := "/api/v1/users";
     body := JObj [("email", JStr "a@b.c")];
     query := [];
     params := [];
     headers := [];
     ip := None;
     connection_remoteAddress := Some "10.0.0.9";
     route := Some {| route_path := "/api/v1/users" |} |}.

(** A handler that emits a value, then undefined, then a third value. *)
Definition three_values : Observable :=
  {| emissions :=
       [ ({| tick_now := 3; tick_statusCode := Some 200 |}, JStr "a");
         ({| tick_now := 4; tick_statusCode := Some 200 |}, JUndefined);
         ({| tick_now := 5; tick_statusCode := Some 200 |}, JStr "c") ];
     terminal := ({| tick_now := 6; tick_statusCode := Some 200 |}, Complete) |}.

(** A production configuration. *)
Definition production : string -> JsValue :=
  fun k => if k =? "NODE_ENV" then JStr "production"
           else if k =? "DB_HOST" then JStr "db.internal"
           else JUndefined.
End Examples.

(* ================================================================== *)
(** * Properties *)

(** ** Strings *)

Lemma append_inj_l (p a b : string) : p ++ a = p ++ b -> a = b.
Proof.
  induction p as [|c p IH]; simpl; intros H.
  - exact H.
  - injection H as H. auto.
Qed.

Lemma str_or_some (x d : string) : x <> "" -> str_or (Some x) d = x.
Proof.
  intros H. unfold str_or. destruct (String.eqb_spec x ""); congruence.
Qed.

Lemma str_or_absent (s : option string) (d : string) :
  s = None \/ s = Some "" -> str_or s d = d.
Proof.
  intros [-> | ->]; reflexivity.
Qed.

(** ** The error normalizer *)

Section FilterProperties.
Context {RT : JsRuntime}.
Import GlobalExceptionFilter.

(** The first four fields of the envelope are there whatever the
    failure. *)
Lemma envelope_common_fields exception request NODE_ENV now :
  let fields := json_fields (sent_body (catch exception request NODE_ENV now)) in
  assoc "statusCode" fields = Some (JNum (sent_status (catch exception request NODE_ENV now))) /\
  assoc "timestamp" fields = Some (JStr (toISOString now)) /\
  assoc "path" fields = Some (JStr (url request)) /\
  assoc "method" fields = Some (JStr (method request)).
Proof.
  unfold catch. destruct (classify exception) as [[[status message] error] branch_log].
  cbn. repeat split.
Qed.

(** Outside development mode the envelope has no stack field. *)
Lemma no_stack_outside_development exception request NODE_ENV now :
  NODE_ENV <> Some "development" ->
  sent_body (catch exception request NODE_ENV now) =
    let '(status, message, error, _) := classify exception in
    JObj [ ("statusCode", JNum status);
           ("timestamp", JStr (toISOString now));
           ("path", JStr (url request));
           ("method", JStr (method request));
           ("error", error);
           ("message", message) ].
Proof.
  intros Hdev. unfold catch.
  destruct (classify exception) as [[[status message] error] branch_log].
  destruct NODE_ENV as [env|]; cbn.
  - destruct (String.eqb_spec env "development") as [->|]; [congruence | reflexivity].
  - reflexivity.
Qed.

(** C6: for every fault that is neither an HTTP exception, a query
    failure nor an Error instance, the envelope sent has status code 500
    and the error name UnknownError (with the generic message), in
    every environment. *)
Theorem C6_unrecognized_fault_is_unknown_error :
  forall (v : JsValue) (request : Request) (NODE_ENV : option string) (now : Z),
    let sent := catch (ThrownOther v) request NODE_ENV now in
    let fields := json_fields (sent_body sent) in
    sent_status sent = 500 /\
    assoc "statusCode" fields = Some (JNum 500) /\
    assoc "error" fields = Some (JStr "UnknownError") /\
    assoc "message" fields = Some (JStr "Internal server error").
Proof.
  intros v request NODE_ENV now. cbn. repeat split.
Qed.
End FilterProperties.

Section EnvelopeContent.
Context {RT : JsRuntime}.
Import GlobalExceptionFilter.

Lemma same_but_internals_refl e : same_but_internals e e.
Proof.
  destruct e as [[[n m s] st r] | q | [n m s] | v]; constructor.
Qed.

Lemma classify_same_but_internals e e' :
  same_but_internals e e' ->
  fst (classify e) = fst (classify e').
Proof.
  intros H. destruct H as [n m s s' st r | n m s s' | q q' | v v']; cbn.
  - destruct r; reflexivity.
  - reflexivity.
  - reflexivity.
  - reflexivity.
Qed.

Lemma stack_field_only_in_development exception request NODE_ENV now :
  let fields := json_fields (sent_body (catch exception request NODE_ENV now)) in
  has_field "stack" fields = true ->
  NODE_ENV = Some "development" /\
  exists s, carried_stack exception = Some s /\ assoc "stack" fields = Some (JStr s).
Proof.
  unfold catch, has_field.
  destruct (classify exception) as [[[status message] error] branch_log].
  destruct NODE_ENV as [env|]; cbn.
  - destruct (String.eqb_spec env "development") as [->|Hne]; cbn.
    + destruct (is_undefined error), (is_undefined message); cbn;
        destruct exception as [e|e|e|v]; cbn;
        try discriminate;
        (destruct (err_stack (http_error e)) as [s|] || destruct (err_stack e) as [s|]);
        cbn; try discriminate; intros _; (split; [reflexivity | exists s; split; reflexivity]).
    + destruct (is_undefined error), (is_undefined message); cbn; discriminate.
  - destruct (is_undefined error), (is_undefined message); cbn; discriminate.
Qed.

Lemma stack_field_in_development exception request now s :
  carried_stack exception = Some s ->
  assoc "stack" (json_fields (sent_body (catch exception request (Some "development") now)))
    = Some (JStr s).
Proof.
  unfold catch.
  destruct (classify exception) as [[[status message] error] branch_log]. cbn.
  intros Hs.
  assert (Hstack : stack_of exception = JStr s).
  { destruct exception as [e|e|e|v]; cbn in *; try rewrite Hs; try reflexivity; discriminate. }
  rewrite Hstack.
  destruct (is_undefined error), (is_undefined message); reflexivity.
Qed.

(** C7: in every branch the envelope carries timestamp, path and
    method; a stack field is visible to the client only in development
    mode and only when the failure carries a stack (and then it is that
    stack); outside development mode two failures that differ only in
    their internals (the stack of an exception, the content of a
    data-layer failure, the value of an unrecognised fault) are sent the
    same status and the same envelope. *)
Theorem C7_envelope_context_and_stack :
  forall (e e' : Thrown) (request : Request) (NODE_ENV : option string) (now : Z),
    same_but_internals e e' ->
    let sent := catch e request NODE_ENV now in
    let fields := json_fields (sent_body sent) in
    (assoc "timestamp" fields = Some (JStr (toISOString now)) /\
     assoc "path" fields = Some (JStr (url request)) /\
     assoc "method" fields = Some (JStr (method request))) /\
    (has_field "stack" fields = true ->
     NODE_ENV = Some "development" /\
     exists s, carried_stack e = Some s /\ assoc "stack" fields = Some (JStr s)) /\
    (NODE_ENV <> Some "development" ->
     has_field "stack" fields = false /\
     client_view (catch e' request NODE_ENV now) = client_view sent).
Proof.
  intros e e' request NODE_ENV now Hsame sent fields. subst sent fields.
  split; [| split].
  - pose proof (envelope_common_fields e request NODE_ENV now) as H. cbv zeta in H. tauto.
  - apply stack_field_only_in_development.
  - intros Hdev. split.
    + destruct (has_field "stack" _) eqn:Hf; [| reflexivity].
      apply stack_field_only_in_development in Hf. tauto.
    + unfold client_view.
      rewrite (no_stack_outside_development e request NODE_ENV now Hdev).
      rewrite (no_stack_outside_development e' request NODE_ENV now Hdev).
      pose proof (classify_same_but_internals e e' Hsame) as Hc.
      assert (Hs : sent_status (catch e' request NODE_ENV now)
                   = sent_status (catch e request NODE_ENV now)).
      { unfold catch.
        destruct (classify e) as [[[st m] er] bl], (classify e') as [[[st' m'] er'] bl'].
        cbn in *. congruence. }
      rewrite Hs.
      destruct (classify e) as [[[st m] er] bl], (classify e') as [[[st' m'] er'] bl'].
      cbn in Hc. injection Hc as -> -> ->. reflexivity.
Qed.
End EnvelopeContent.

(** Two errors with different stacks in production: one envelope. *)
Lemma C7_witness :
  GlobalExceptionFilter.client_view
    (GlobalExceptionFilter.catch (RT := Fixtures.runtime)
       (ThrownError (mkError "Error" "boom" (Some "at b.ts:2"))) Fixtures.health_request
       (Some "production") 0)
  = GlobalExceptionFilter.client_view
      (GlobalExceptionFilter.catch (RT := Fixtures.runtime)
         (ThrownError (mkError "Error" "boom" (Some "at a.ts:1"))) Fixtures.health_request
         (Some "production") 0).
Proof.
  refine (proj2 (proj2 (proj2
    (C7_envelope_context_and_stack (RT := Fixtures.runtime)
       (ThrownError (mkError "Error" "boom" (Some "at a.ts:1")))
       (ThrownError (mkError "Error" "boom" (Some "at b.ts:2")))
       Fixtures.health_request (Some "production") 0
       (GlobalExceptionFilter.SBI_error _ _ _ _))) _)).
  discriminate.
Defined.

(** ** The rate limiter *)

Section GuardProperties.
Context {RT : JsRuntime}.
Import NestThrottlerGuard.

Variable context : ExecutionContext.
Variable now : Z.

Let bucket (t : ThrottlerOptions) : string :=
  ThrottlerGuard.generateKey context
    (ThrottlerGuard.getTracker (ctx_request context)) (name t).

(** The guard throws nothing but the throttling exception. *)
Lemma handleTiers_raises tiers st st' e :
  handleTiers context now tiers st = (st', Some e) ->
  e = ThrottlerGuard.throwThrottlingException context now.
Proof.
  revert st. induction tiers as [|t rest IH]; intros st; cbn [handleTiers].
  - discriminate.
  - fold (bucket t).
    destruct (increment st (bucket t) (ttl t) now) as [st1 hits].
    destruct (hits >? limit t)%Z.
    + intros H. injection H as _ <-. reflexivity.
    + apply IH.
Qed.

Lemma find_record_filter_other k k' st :
  k <> k' ->
  find_record k' (filter (fun r' => negb (key r' =? k)) st) = find_record k' st.
Proof.
  intros Hne. unfold find_record.
  induction st as [|r st IH]; simpl; [reflexivity |].
  destruct (String.eqb_spec (key r) k) as [Hk|Hk]; simpl.
  - destruct (String.eqb_spec (key r) k') as [Hk'|Hk']; [congruence | exact IH].
  - destruct (key r =? k'); [reflexivity | exact IH].
Qed.

(** Counting on one bucket leaves every other bucket as it was. *)
Lemma increment_frame st k w k' :
  k <> k' ->
  find_record k' (fst (increment st k w now)) = find_record k' st.
Proof.
  intros Hne. unfold increment, put_record. cbn [fst key].
  unfold find_record at 1. cbn [find key].
  destruct (String.eqb_spec k k') as [|_]; [congruence |].
  apply (find_record_filter_other k k' st Hne).
Qed.

Lemma increment_count_depends_on_record st st' k w :
  find_record k st = find_record k st' ->
  snd (increment st k w now) = snd (increment st' k w now).
Proof.
  intros H. unfold increment. cbn [snd count]. rewrite H. reflexivity.
Qed.

Lemma tier_admits_frame st t t' :
  bucket t <> bucket t' ->
  tier_admits context now (fst (increment st (bucket t) (ttl t) now)) t'
  = tier_admits context now st t'.
Proof.
  intros Hne. unfold tier_admits. fold (bucket t').
  rewrite (increment_count_depends_on_record _ st (bucket t') (ttl t')); [reflexivity |].
  apply increment_frame. exact Hne.
Qed.

(** A request is admitted exactly when every tier, taken alone on the
    counters as they were, admits it: tiers with distinct buckets do
    not interfere. *)
Lemma handleTiers_admits_iff tiers :
  NoDup (map bucket tiers) ->
  forall st,
    snd (handleTiers context now tiers st) = None
    <-> forallb (tier_admits context now st) tiers = true.
Proof.
  induction tiers as [|t rest IH]; intros Hnd st; cbn [handleTiers forallb map snd].
  - tauto.
  - cbn [map] in Hnd. inversion Hnd as [|? ? Hnotin Hnd']; subst.
    fold (bucket t). unfold tier_admits at 1. fold (bucket t).
    destruct (increment st (bucket t) (ttl t) now) as [st1 hits] eqn:Hinc.
    cbn [snd].
    destruct (Z.leb_spec hits (limit t)) as [Hle|Hgt].
    + assert (Hg : (hits >? limit t)%Z = false) by (rewrite Z.gtb_ltb; apply Z.ltb_ge; lia).
      rewrite Hg.
      rewrite (IH Hnd' st1). cbn [andb].
      assert (Hst1 : st1 = fst (increment st (bucket t) (ttl t) now)) by (rewrite Hinc; reflexivity).
      assert (Hext : forallb (tier_admits context now st1) rest
                     = forallb (tier_admits context now st) rest).
      { clear IH Hnd' Hnd. induction rest as [|t' rest IHr]; simpl; [reflexivity |].
        simpl in Hnotin.
        rewrite IHr by tauto.
        rewrite Hst1, tier_admits_frame; [reflexivity |].
        intros Heq. apply Hnotin. left. symmetry. exact Heq. }
      rewrite Hext. tauto.
    + assert (Hg : (hits >? limit t)%Z = true) by (rewrite Z.gtb_ltb; apply Z.ltb_lt; lia).
      rewrite Hg.
      cbn. split; discriminate.
Qed.

Lemma resolve_name meta t : name (resolve meta t) = name t.
Proof.
  unfold resolve. destruct (assoc (name t) meta); reflexivity.
Qed.

(** The three configured tiers count on three different buckets, with
    or without overrides. *)
Lemma configured_buckets_distinct configService meta :
  NoDup (map bucket (map (resolve meta) (AppModule.throttlers configService))).
Proof.
  unfold AppModule.throttlers. cbn [map]. unfold bucket.
  rewrite !resolve_name. cbn [name].
  unfold ThrottlerGuard.generateKey.
  repeat constructor; cbn; intuition discriminate.
Qed.

Lemma canActivate_admits_iff configService st :
  snd (canActivate configService context now st) = None
  <-> forallb (tier_admits context now st)
        (map (resolve (ctx_throttle context)) (AppModule.throttlers configService)) = true.
Proof.
  unfold canActivate. apply handleTiers_admits_iff, configured_buckets_distinct.
Qed.
End GuardProperties.

Section TierProperties.
Context {RT : JsRuntime}.
Import NestThrottlerGuard.

Lemma resolve_no_metadata (tiers : list ThrottlerOptions) : map (resolve []) tiers = tiers.
Proof.
  induction tiers as [|t rest IH]; cbn [map]; [reflexivity |].
  rewrite IH. reflexivity.
Qed.

Lemma js_mul_exact (x k : Z) : Z.abs (x * k) < 2 ^ 53 -> js_mul x k = x * k.
Proof.
  intros H. unfold js_mul, round_to_double. cbv zeta.
  destruct (Z.ltb_spec (Z.abs (x * k)) (2 ^ 53)); [reflexivity | lia].
Qed.

(** C3, as the code has it: exactly three tiers, short, medium and
    long; their windows are w, w x 10 and w x 60, where w is the
    configured base window throttle.ttl (60000 ms when unset), so one
    minute, ten minutes and one hour when w is one minute; their limits
    are base, base x 10 and base x 60, where base is the configured
    throttle.limit (100 when unset).  The products are the engine's: exact
    as long as they stay below 2^53 in magnitude, the nearest double
    beyond.  A request on a handler without override is admitted exactly
    when each of the three tiers admits it. *)
Theorem C3_three_tiers_scale_from_base :
  forall (configService : ConfigService) (context : ExecutionContext) (now : Z) (st : Store),
    ctx_throttle context = [] ->
    let w := nullish (configService "throttle.ttl") 60000 in
    let base := nullish (configService "throttle.limit") 100 in
    let tiers := AppModule.throttlers configService in
    tiers = [ {| name := "short"; ttl := w; limit := base |};
              {| name := "medium"; ttl := js_mul w 10; limit := js_mul base 10 |};
              {| name := "long"; ttl := js_mul w 60; limit := js_mul base 60 |} ] /\
    (Z.abs w * 60 < 2 ^ 53 -> map ttl tiers = [w; w * 10; w * 60]) /\
    (Z.abs base * 60 < 2 ^ 53 -> map limit tiers = [base; base * 10; base * 60]) /\
    (w = 60000 -> map ttl tiers = [60000; 600000; 3600000]) /\
    (snd (canActivate configService context now st) = None
     <-> forallb (tier_admits context now st) tiers = true).
Proof.
  intros configService context now st Hplain w base tiers.
  split; [reflexivity | split; [| split; [| split]]].
  - intros Hw. subst tiers. unfold AppModule.throttlers. cbn [map ttl]. fold w.
    rewrite !js_mul_exact by (rewrite Z.abs_mul; cbn; lia). reflexivity.
  - intros Hb. subst tiers. unfold AppModule.throttlers. cbn [map limit]. fold base.
    rewrite !js_mul_exact by (rewrite Z.abs_mul; cbn; lia). reflexivity.
  - intros Hw. subst tiers. unfold AppModule.throttlers. cbn [map ttl].
    fold w. rewrite Hw. reflexivity.
  - rewrite canActivate_admits_iff, Hplain, resolve_no_metadata. reflexivity.
Qed.

(** A predefined setting replaces the short tier and nothing else. *)
Lemma resolve_predefined configService l :
  map (resolve [("short", {| o_ttl := 60000; o_limit := l |})])
      (AppModule.throttlers configService)
  = {| name := "short"; ttl := 60000; limit := num_or l (nullish (configService "throttle.limit") 100) |}
      :: tl (AppModule.throttlers configService).
Proof. reflexivity. Qed.

(** The key of [Custom] names no configured tier: the decorator changes
    nothing. *)
Lemma resolve_Custom configService l w :
  map (resolve (ThrottleEndpoint.Custom l w)) (AppModule.throttlers configService)
  = AppModule.throttlers configService.
Proof. reflexivity. Qed.

(** C1, as the code has it: on a handler that declares Strict,
    Moderate or Lenient, the declared limit and window replace those of
    the short tier only; the medium and long tiers keep their configured
    window and limit, and the request is admitted exactly when the short
    tier with the declared setting, the medium tier and the long tier
    all admit it.  The configured windows and limits of medium and long
    are the engine's products, ten and sixty times the base values
    wherever sixty times the base stays below 2^53 in magnitude. *)
Theorem C1_predefined_override_replaces_short_tier :
  forall (configService : ConfigService) (context : ExecutionContext) (now : Z) (st : Store),
    In (ctx_throttle context)
       [ThrottleEndpoint.Strict; ThrottleEndpoint.Moderate; ThrottleEndpoint.Lenient] ->
    let w := nullish (configService "throttle.ttl") 60000 in
    let base := nullish (configService "throttle.limit") 100 in
    exists l,
      In l [10; 30; 100] /\
      ctx_throttle context = [("short", {| o_ttl := 60000; o_limit := l |})] /\
      map (resolve (ctx_throttle context)) (AppModule.throttlers configService)
      = [ {| name := "short"; ttl := 60000; limit := l |};
          {| name := "medium"; ttl := js_mul w 10; limit := js_mul base 10 |};
          {| name := "long"; ttl := js_mul w 60; limit := js_mul base 60 |} ] /\
      (snd (canActivate configService context now st) = None
       <-> tier_admits context now st {| name := "short"; ttl := 60000; limit := l |}
           && tier_admits context now st
                {| name := "medium"; ttl := js_mul w 10; limit := js_mul base 10 |}
           && tier_admits context now st
                {| name := "long"; ttl := js_mul w 60; limit := js_mul base 60 |}
           = true) /\
      (Z.abs w * 60 < 2 ^ 53 -> Z.abs base * 60 < 2 ^ 53 ->
       map (resolve (ctx_throttle context)) (AppModule.throttlers configService)
       = [ {| name := "short"; ttl := 60000; limit := l |};
           {| name := "medium"; ttl := w * 10; limit := base * 10 |};
           {| name := "long"; ttl := w * 60; limit := base * 60 |} ]).
Proof.
  intros configService context now st Hin w base.
  assert (Hl : exists l, In l [10; 30; 100] /\
                 ctx_throttle context = [("short", {| o_ttl := 60000; o_limit := l |})]).
  { cbn [In] in Hin. destruct Hin as [H | [H | [H | []]]]; rewrite <- H.
    - exists 10. cbn. tauto.
    - exists 30. cbn. tauto.
    - exists 100. cbn. tauto. }
  destruct Hl as (l & Hl & Hmeta). exists l.
  assert (Hnum : num_or l base = l).
  { cbn [In] in Hl. destruct Hl as [<- | [<- | [<- | []]]]; reflexivity. }
  split; [exact Hl | split; [exact Hmeta |]].
  assert (Htiers :
    map (resolve (ctx_throttle context)) (AppModule.throttlers configService)
    = [ {| name := "short"; ttl := 60000; limit := l |};
        {| name := "medium"; ttl := js_mul w 10; limit := js_mul base 10 |};
        {| name := "long"; ttl := js_mul w 60; limit := js_mul base 60 |} ]).
  { rewrite Hmeta, resolve_predefined. fold base. rewrite Hnum. reflexivity. }
  split; [exact Htiers | split].
  - rewrite canActivate_admits_iff, Htiers. cbn [forallb].
    rewrite andb_true_r, andb_assoc. reflexivity.
  - intros Hw Hb. rewrite Htiers.
    rewrite !js_mul_exact by (rewrite Z.abs_mul; cbn; lia). reflexivity.
Qed.

(** C4: for a request matched to a handler whose registered route
    pattern is known, the bucket key of a tier is the tier name, a
    colon, the client address, a colon and the route pattern; the
    literal request path takes no part in it.  The client address is
    the first available of the address Express reports, the peer
    address of the connection, and the literal unknown. *)
Theorem C4_bucket_key :
  forall (context : ExecutionContext) (tierName pattern : string),
    option_map route_path (route (ctx_request context)) = Some pattern ->
    pattern <> "" ->
    let request := ctx_request context in
    let clientAddress := ThrottlerGuard.getTracker request in
    ThrottlerGuard.generateKey context clientAddress tierName
    = tierName ++ ":" ++ clientAddress ++ ":" ++ pattern /\
    (forall a, ip request = Some a -> a <> "" -> clientAddress = a) /\
    (forall a, ip request = None \/ ip request = Some "" ->
               connection_remoteAddress request = Some a -> a <> "" -> clientAddress = a) /\
    (ip request = None \/ ip request = Some "" ->
     connection_remoteAddress request = None \/ connection_remoteAddress request = Some "" ->
     clientAddress = "unknown").
Proof.
  intros context tierName pattern Hroute Hne request clientAddress.
  subst request clientAddress. unfold ThrottlerGuard.generateKey, ThrottlerGuard.getTracker.
  rewrite Hroute, (str_or_some pattern _ Hne).
  split; [reflexivity |]. split; [| split].
  - intros a Ha Hane. rewrite Ha. apply str_or_some, Hane.
  - intros a Hip Ha Hane. rewrite (str_or_absent _ _ Hip), Ha. apply str_or_some, Hane.
  - intros Hip Hra. rewrite (str_or_absent _ _ Hip). apply str_or_absent, Hra.
Qed.

(** C5: whenever the guard rejects a request, what it throws is an
    exception with status 429 and the message Too Many Requests, and the
    envelope the filter sends for it has status code 429, that message
    and the error name ThrottlerException. *)
Theorem C5_rejection_is_429_ThrottlerException :
  forall (configService : ConfigService) (context : ExecutionContext) (now : Z)
         (st st' : Store) (e : HttpException) (NODE_ENV : option string) (later : Z),
    canActivate configService context now st = (st', Some e) ->
    let sent := GlobalExceptionFilter.catch (ThrownHttp e) (ctx_request context) NODE_ENV later in
    let fields := json_fields (GlobalExceptionFilter.sent_body sent) in
    http_status e = 429 /\
    err_message (http_error e) = "Too Many Requests" /\
    GlobalExceptionFilter.sent_status sent = 429 /\
    assoc "statusCode" fields = Some (JNum 429) /\
    assoc "message" fields = Some (JStr "Too Many Requests") /\
    assoc "error" fields = Some (JStr "ThrottlerException").
Proof.
  intros configService context now st st' e NODE_ENV later H.
  apply handleTiers_raises in H. subst e. cbn. repeat split.
Qed.
End TierProperties.

(** With nothing configured the tiers are 100 per minute, 1000 per ten
    minutes and 6000 per hour. *)
Lemma C3_witness :
  AppModule.throttlers Fixtures.config_default
  = [ {| name := "short"; ttl := 60000; limit := 100 |};
      {| name := "medium"; ttl := 600000; limit := 1000 |};
      {| name := "long"; ttl := 3600000; limit := 6000 |} ].
Proof.
  exact (proj1 (C3_three_tiers_scale_from_base (RT := Fixtures.runtime)
                  Fixtures.config_default Fixtures.plain_context 0 [] eq_refl)).
Defined.

(** With [THROTTLE_TTL=300000] the windows are five minutes, fifty
    minutes and five hours, not one minute, ten minutes and one hour. *)
Lemma C3_counterexample :
  map ttl (AppModule.throttlers Fixtures.config_ttl_5min) = [300000; 3000000; 18000000] /\
  map ttl (AppModule.throttlers Fixtures.config_ttl_5min) <> [60000; 600000; 3600000].
Proof.
  split; [reflexivity | discriminate].
Qed.

(** Under [THROTTLE_LIMIT=1] the medium tier allows 10 requests in ten
    minutes.  On a handler declared Lenient (100 per minute) the eleventh
    request of a client within eleven seconds is rejected by the guard,
    while a check against the declared limit alone admits it. *)
Lemma C1_counterexample :
  NestThrottlerGuard.run (RT := Fixtures.runtime) Fixtures.config_limit_1
    Fixtures.lenient_context Fixtures.eleven_instants []
  = [true; true; true; true; true; true; true; true; true; true; false] /\
  NestThrottlerGuard.run_superseding (RT := Fixtures.runtime) Fixtures.config_limit_1
    Fixtures.lenient_context Fixtures.eleven_instants []
  = [true; true; true; true; true; true; true; true; true; true; true].
Proof.
  split; vm_compute; reflexivity.
Qed.

(** The tiers of a Lenient handler under [THROTTLE_LIMIT=1]. *)
Lemma C1_witness :
  map (NestThrottlerGuard.resolve ThrottleEndpoint.Lenient)
      (AppModule.throttlers Fixtures.config_limit_1)
  = [ {| name := "short"; ttl := 60000; limit := 100 |};
      {| name := "medium"; ttl := 600000; limit := 10 |};
      {| name := "long"; ttl := 3600000; limit := 60 |} ].
Proof.
  destruct (C1_predefined_override_replaces_short_tier (RT := Fixtures.runtime)
              Fixtures.config_limit_1 Fixtures.lenient_context 0 []
              (or_intror (or_intror (or_introl eq_refl))))
    as (l & _ & Hmeta & Htiers & _).
  injection Hmeta as <-. exact Htiers.
Defined.

(** The short-tier key of a health request. *)
Lemma C4_witness :
  ThrottlerGuard.generateKey Fixtures.lenient_context
    (ThrottlerGuard.getTracker Fixtures.health_request) "short"
  = "short:10.0.0.7:/api/v1/health".
Proof.
  refine (proj1 (C4_bucket_key Fixtures.lenient_context "short" "/api/v1/health" eq_refl _)).
  discriminate.
Defined.

(** The second request in a minute under a limit of one. *)
Lemma C5_witness :
  http_status (ThrottlerGuard.throwThrottlingException (RT := Fixtures.runtime)
                 Fixtures.plain_context 1) = 429.
Proof.
  refine (proj1 (C5_rejection_is_429_ThrottlerException (RT := Fixtures.runtime)
                   Fixtures.config_limit_1 Fixtures.plain_context 1 Fixtures.store_after_one
                   (fst (NestThrottlerGuard.canActivate (RT := Fixtures.runtime)
                           Fixtures.config_limit_1 Fixtures.plain_context 1
                           Fixtures.store_after_one))
                   (ThrottlerGuard.throwThrottlingException (RT := Fixtures.runtime)
                      Fixtures.plain_context 1)
                   None 2 _)).
  vm_compute. reflexivity.
Defined.

(** ** The validator *)

Section ValidationProperties.
Context {RT : JsRuntime}.
Import ValidationPipe.

(** Induction on an error with the hypothesis for all its children. *)
Lemma ValidationError_nested_ind (P : ValidationError -> Prop) :
  (forall property v constraints children,
      Forall P (match children with Some cs => cs | None => [] end) ->
      P (mkValidationError property v constraints children)) ->
  forall e, P e.
Proof.
  intros H. fix IH 1. intros [property v constraints children].
  apply H. destruct children as [cs|]; [| constructor].
  induction cs as [|c cs IHcs]; constructor; [apply IH | exact IHcs].
Qed.

(** One entry per violated constraint. *)
Lemma extractErrors_length e :
  forall parentPath, List.length (extractErrors e parentPath) = violations e.
Proof.
  induction e as [property v constraints children IH] using ValidationError_nested_ind.
  intros parentPath. cbn [extractErrors violations].
  rewrite length_app. f_equal.
  - destruct constraints as [cs|]; [apply length_map | reflexivity].
  - destruct children as [cs|]; [| reflexivity].
    induction IH as [|c cs Hc _ IHcs]; cbn [flat_map map list_sum]; [reflexivity |].
    rewrite length_app, Hc, IHcs. reflexivity.
Qed.

Lemma customFlatten_length validationErrors :
  List.length (customFlattenValidationErrors validationErrors)
  = list_sum (map violations validationErrors).
Proof.
  unfold customFlattenValidationErrors.
  induction validationErrors as [|e rest IH]; cbn [flat_map map list_sum]; [reflexivity |].
  rewrite length_app, extractErrors_length, IH. reflexivity.
Qed.

Lemma append_assoc3 (a b c : string) : (a ++ b) ++ c = a ++ b ++ c.
Proof.
  induction a as [|x a IH]; cbn; [reflexivity | rewrite IH; reflexivity].
Qed.

Lemma append_not_empty (a b : string) : b <> "" -> a ++ b <> "".
Proof.
  intros Hb. destruct a; cbn; [exact Hb | discriminate].
Qed.

Lemma dotted_snoc above property :
  above <> [] ->
  dotted (above ++ [property]) = dotted above ++ "." ++ property.
Proof.
  unfold dotted. induction above as [|a rest IH]; [congruence |].
  intros _. destruct rest as [|b rest]; [reflexivity |].
  change (String.concat "." ((a :: b :: rest) ++ [property]))
    with (a ++ "." ++ String.concat "." ((b :: rest) ++ [property])).
  rewrite IH by discriminate.
  change (String.concat "." (a :: b :: rest))
    with (a ++ "." ++ String.concat "." (b :: rest)).
  rewrite !append_assoc3. reflexivity.
Qed.

(** The path the code accumulates is the dotted path of the names. *)
Lemma currentPath_dotted above property :
  above = [] \/ dotted above <> "" ->
  currentPath (dotted above) property = dotted (above ++ [property]).
Proof.
  intros [-> | Hne]; [reflexivity |].
  unfold currentPath. destruct (String.eqb_spec (dotted above) "") as [Heq|_]; [congruence |].
  symmetry. apply dotted_snoc. intros ->. apply Hne. reflexivity.
Qed.

Lemma dotted_snoc_not_empty above property :
  property <> "" -> dotted (above ++ [property]) <> "".
Proof.
  intros Hp. destruct above as [|a rest]; [exact Hp |].
  rewrite dotted_snoc by discriminate.
  apply append_not_empty. discriminate.
Qed.

(** Each entry is keyed by the dotted path from the root to the
    property that violates the constraint, parents before children. *)
Lemma extractErrors_paths e :
  forall above,
    named e ->
    above = [] \/ dotted above <> "" ->
    extractErrors e (dotted above)
    = map (fun l => {| field := dotted (fst (fst l)); message := snd (fst l); value := snd l |})
          (leaves above e).
Proof.
  induction e as [property v constraints children IH] using ValidationError_nested_ind.
  intros above [Hp Hch] Habove. cbn [extractErrors leaves].
  rewrite (currentPath_dotted above property Habove), map_app. f_equal.
  - destruct constraints as [cs|]; [| reflexivity].
    rewrite map_map. reflexivity.
  - destruct children as [cs|]; [| reflexivity].
    induction IH as [|c cs Hc _ IHcs]; cbn [flat_map]; [reflexivity |].
    destruct Hch as [Hnc Hncs].
    rewrite map_app, <- IHcs by exact Hncs. f_equal.
    apply Hc; [exact Hnc |]. right. apply dotted_snoc_not_empty, Hp.
Qed.

(** C2, on the code: the exception the pipe builds has status 400 and
    carries, under [errors], one entry per violated constraint of the
    whole input; but the envelope the filter sends for it has neither a
    details nor an errors field: the list does not reach the client. *)
Theorem C2_envelope_drops_violation_list :
  forall (validationErrors : list ValidationError) (request : Request)
         (NODE_ENV : option string) (now : Z),
    let e := exceptionFactory validationErrors in
    let sent := GlobalExceptionFilter.catch (ThrownHttp e) request NODE_ENV now in
    let fields := json_fields (GlobalExceptionFilter.sent_body sent) in
    http_status e = 400 /\
    get_prop (http_response e) "errors"
      = JArr (map to_js (customFlattenValidationErrors validationErrors)) /\
    List.length (customFlattenValidationErrors validationErrors)
      = list_sum (map violations validationErrors) /\
    GlobalExceptionFilter.sent_status sent = 400 /\
    assoc "message" fields = Some (JStr "Validation failed") /\
    assoc "error" fields = Some (JStr "BadRequestException") /\
    has_field "details" fields = false /\
    has_field "errors" fields = false.
Proof.
  intros validationErrors request NODE_ENV now e sent fields.
  subst e sent fields.
  split; [reflexivity | split; [reflexivity | split; [apply customFlatten_length |]]].
  unfold has_field.
  destruct NODE_ENV as [env|]; cbn.
  - destruct (env =? "development"); cbn;
      [destruct (captureStack "BadRequestException"); cbn |]; repeat split.
  - repeat split.
Qed.
End ValidationProperties.

(** The flattening of an input with three violations, one of them at
    the root and two on a nested property. *)
Lemma flatten_nested_example :
  ValidationPipe.customFlattenValidationErrors Fixtures.nested_errors
  = [ {| ValidationPipe.field := "name";
         ValidationPipe.message := "name should not be empty";
         ValidationPipe.value := JStr "" |};
      {| ValidationPipe.field := "address.zip";
         ValidationPipe.message := "zip must be a string";
         ValidationPipe.value := JNum 1 |};
      {| ValidationPipe.field := "address.zip";
         ValidationPipe.message := "zip must be longer than or equal to 5 characters";
         ValidationPipe.value := JNum 1 |} ].
Proof. reflexivity. Qed.

(** The envelope sent for one violation, [email must be an email], in
    production: six fields, none of them the list of violations. *)
Lemma C2_failing_input :
  json_fields
    (GlobalExceptionFilter.sent_body
       (GlobalExceptionFilter.catch (RT := Fixtures.runtime)
          (ThrownHttp (ValidationPipe.exceptionFactory (RT := Fixtures.runtime)
                         [Fixtures.bad_email]))
          Fixtures.health_request (Some "production") 7))
  = [ ("statusCode", JNum 400);
      ("timestamp", JStr "T7");
      ("path", JStr "/api/v1/health?verbose=1");
      ("method", JStr "GET");
      ("error", JStr "BadRequestException");
      ("message", JStr "Validation failed") ].
Proof. vm_compute. reflexivity. Qed.

(** ** The date pipes *)

Section DatePipeProperties.
Context {RT : JsRuntime}.
Import ParseDatePipe.

Lemma is_empty_false s : s <> "" -> is_empty (Some s) = false.
Proof.
  intros H. unfold is_empty. destruct (String.eqb_spec s ""); congruence.
Qed.

(** The two messages of the pipe never coincide. *)
Lemma expected_message_not_invalid_message metadata v :
  expected_message metadata <> invalid_message metadata v.
Proof.
  unfold expected_message, invalid_message. intros H.
  apply append_inj_l, append_inj_l in H. cbn in H. discriminate.
Qed.

(** What the pipe throws for a non-empty string that is no date. *)
Lemma transform_invalid pipe s metadata :
  s <> "" -> Date_parse s = None ->
  transform pipe (Some s) metadata
  = Raised (Framework.new_BadRequestException (JStr (invalid_message metadata s))).
Proof.
  intros Hs Hparse. unfold transform. rewrite (is_empty_false s Hs), Hparse. reflexivity.
Qed.

(** C8: the optional date parse returns the absent value, undefined,
    for every missing or empty input, whatever the parameter and however
    often it is applied; for every non-empty string that is no date it
    throws an exception with status 400 and returns nothing. *)
Theorem C8_optional_parse_absent_or_rejects :
  forall (value : option string) (s : string) (metadata : ArgumentMetadata),
    is_empty value = true ->
    s <> "" ->
    Date_parse s = None ->
    transform ParseOptionalDatePipe value metadata = Returned None /\
    (exists e, transform ParseOptionalDatePipe (Some s) metadata = Raised e /\
               http_status e = 400) /\
    (forall r, transform ParseOptionalDatePipe (Some s) metadata <> Returned r).
Proof.
  intros value s metadata Hempty Hs Hparse. split; [| split].
  - unfold transform. rewrite Hempty. reflexivity.
  - rewrite (transform_invalid _ s metadata Hs Hparse). eexists. split; reflexivity.
  - intros r. rewrite (transform_invalid _ s metadata Hs Hparse). discriminate.
Qed.

(** C10: for a missing or empty value, a pipe whose optional flag is
    not set throws an exception with status 400 whose message is
    Validation failed for the named parameter, Expected a valid date
    string; that message differs from the one thrown for any non-empty
    string that is no date (is not a valid date); and the pipe returns
    the absent value for such an input only when the optional flag is
    set. *)
Theorem C10_required_parse_rejects_empty :
  forall (pipe : Pipe) (value : option string) (metadata : ArgumentMetadata),
    is_empty value = true ->
    (is_optional pipe = false ->
     exists e,
       transform pipe value metadata = Raised e /\
       http_status e = 400 /\
       err_message (http_error e)
         = "Validation failed for " ++ str_or (data metadata) "parameter"
             ++ ". Expected a valid date string." /\
       get_prop (http_response e) "message" = JStr (err_message (http_error e)) /\
       forall s, s <> "" -> Date_parse s = None ->
         exists e', transform pipe (Some s) metadata = Raised e' /\
                    http_status e' = 400 /\
                    err_message (http_error e')
                      = "Validation failed for " ++ str_or (data metadata) "parameter"
                          ++ ". " ++ dquote ++ s ++ dquote ++ " is not a valid date." /\
                    err_message (http_error e') <> err_message (http_error e)) /\
    (forall r, transform pipe value metadata = Returned r ->
               is_optional pipe = true /\ r = None).
Proof.
  intros pipe value metadata Hempty. split.
  - intros Hreq. eexists. split; [| split; [| split; [| split]]].
    + unfold transform. rewrite Hempty, Hreq. reflexivity.
    + reflexivity.
    + reflexivity.
    + reflexivity.
    + intros s Hs Hparse. eexists. split; [| split; [| split]].
      * apply (transform_invalid pipe s metadata Hs Hparse).
      * reflexivity.
      * reflexivity.
      * intros H. symmetry in H. revert H.
        apply (expected_message_not_invalid_message metadata s).
  - intros r. unfold transform. rewrite Hempty.
    destruct (is_optional pipe); [| discriminate].
    intros H. injection H as <-. split; reflexivity.
Qed.
End DatePipeProperties.

(** The optional parse of an empty string, next to a malformed one. *)
Lemma C8_witness :
  ParseDatePipe.transform (RT := Fixtures.runtime) ParseDatePipe.ParseOptionalDatePipe
    (Some "") {| ParseDatePipe.data := Some "endDate" |}
  = Returned None.
Proof.
  refine (proj1 (C8_optional_parse_absent_or_rejects (RT := Fixtures.runtime)
                   (Some "") "not-a-date" {| ParseDatePipe.data := Some "endDate" |}
                   eq_refl _ eq_refl)).
  discriminate.
Defined.

(** The required parse of a missing [date] parameter. *)
Lemma C10_witness :
  exists e,
    ParseDatePipe.transform (RT := Fixtures.runtime) ParseDatePipe.ParseDatePipe_default
      None {| ParseDatePipe.data := Some "date" |} = Raised e /\
    http_status e = 400 /\
    err_message (http_error e) = "Validation failed for date. Expected a valid date string.".
Proof.
  destruct (proj1 (C10_required_parse_rejects_empty (RT := Fixtures.runtime)
                     ParseDatePipe.ParseDatePipe_default None
                     {| ParseDatePipe.data := Some "date" |} eq_refl) eq_refl)
    as (e & Hraised & Hstatus & Hmessage & _).
  exists e. split; [exact Hraised | split; [exact Hstatus | exact Hmessage]].
Defined.

(** ** The logger *)

Section LoggerProperties.
Context {RT : JsRuntime}.
Import LoggingInterceptor.

Variable request : Request.
Variable now : Z.

Lemma start_record_is_start :
  is_start (start_record request now) = true /\ is_end (start_record request now) = false.
Proof. split; reflexivity. Qed.

Lemma on_next_is_end tk data r :
  on_next request now tk data = inl r -> is_start r = false /\ is_end r = true.
Proof.
  unfold on_next. destruct (JSON_stringify data); [| discriminate].
  intros H. injection H as <-. split; reflexivity.
Qed.

Lemma on_error_is_end tk e r :
  on_error request now tk e = inl r -> is_start r = false /\ is_end r = true.
Proof.
  unfold on_error. destruct (message_of e); [| discriminate].
  intros H. injection H as <-. split; reflexivity.
Qed.

(** Every record the callbacks log is an end record. *)
Lemma tap_logs_end_records values ending :
  Forall (fun r => is_start r = false /\ is_end r = true)
         (fst (tap (on_next request now) (on_error request now) values ending)).
Proof.
  induction values as [|[tk v] rest IH]; cbn [tap].
  - destruct ending as [tk [|e]]; cbn; [constructor |].
    destruct (on_error request now tk e) as [r|e'] eqn:He; cbn; constructor;
      [eapply on_error_is_end; exact He | constructor].
  - destruct (on_next request now tk v) as [r|e'] eqn:Hn; [| constructor].
    destruct (tap _ _ rest ending) as [logs out]. cbn in *.
    constructor; [eapply on_next_is_end; exact Hn | exact IH].
Qed.

Lemma count_start_of_end_records logs :
  Forall (fun r => is_start r = false /\ is_end r = true) logs ->
  count_records is_start logs = 0%nat /\ count_records is_end logs = List.length logs.
Proof.
  unfold count_records.
  induction 1 as [|r logs [Hs He] _ [IHs IHe]]; cbn [filter]; [split; reflexivity |].
  rewrite Hs, He. cbn [List.length]. rewrite IHe. split; [exact IHs | reflexivity].
Qed.

(** Once entered, the interceptor logs exactly one start record. *)
Lemma intercept_one_start handled :
  count_records is_start (fst (intercept request now handled)) = 1%nat.
Proof.
  unfold intercept.
  pose proof (tap_logs_end_records (emissions handled) (terminal handled)) as H.
  destruct (tap _ _ (emissions handled) (terminal handled)) as [logs out]. cbn [fst] in *.
  apply count_start_of_end_records in H. destruct H as [H _].
  unfold count_records in *. cbn [filter].
  rewrite (proj1 start_record_is_start). cbn [List.length]. rewrite H. reflexivity.
Qed.

End LoggerProperties.

(** The second request in a minute under a limit of one is rejected by
    the guard, and the logger emits no record for it: neither a start nor
    an end record. *)
Lemma C9_counterexample :
  exists e,
    snd (NestThrottlerGuard.canActivate (RT := Fixtures.runtime) Fixtures.config_limit_1
           Fixtures.plain_context 1 Fixtures.store_after_one) = Some e /\
    Lifecycle.interceptor_log
      (Lifecycle.serve (RT := Fixtures.runtime) (Some e) Fixtures.health_request
         (Fixtures.handler_returns (JStr "ok")) None 1) = [] /\
    LoggingInterceptor.count_records LoggingInterceptor.is_start
      (Lifecycle.interceptor_log
         (Lifecycle.serve (RT := Fixtures.runtime) (Some e) Fixtures.health_request
            (Fixtures.handler_returns (JStr "ok")) None 1)) <> 1%nat.
Proof.
  eexists. split; [vm_compute; reflexivity |].
  split; [reflexivity | discriminate].
Qed.

(** A handler that throws an HTTP exception while the response status is
    still unset: one start record and one end record with status 500. *)
Lemma handler_throws_example :
  map (fun r => get_prop (log_context r) "statusCode")
      (Lifecycle.interceptor_log
         (Lifecycle.serve (RT := Fixtures.runtime) None Fixtures.health_request
            (Fixtures.handler_throws
               (ThrownHttp (Framework.new_BadRequestException (RT := Fixtures.runtime)
                              (JStr "no")))
               None)
            None 0))
  = [JUndefined; JNum 500].
Proof. vm_compute. reflexivity. Qed.

(** A handler that returns undefined: the size of the serialised result
    cannot be read, no end record is logged and the request fails. *)
Lemma handler_returns_undefined_example :
  exists e,
    Lifecycle.interceptor_log
      (Lifecycle.serve (RT := Fixtures.runtime) None Fixtures.health_request
         (Fixtures.handler_returns JUndefined) None 0)
    = [LoggingInterceptor.start_record (RT := Fixtures.runtime) Fixtures.health_request 0] /\
    option_map terminal
      (Lifecycle.stream
         (Lifecycle.serve (RT := Fixtures.runtime) None Fixtures.health_request
            (Fixtures.handler_returns JUndefined) None 0))
    = Some ({| tick_now := 12; tick_statusCode := Some 200 |}, Failed (ThrownError e)).
Proof. eexists. split; vm_compute; reflexivity. Qed.

(* ================================================================== *)
(** * Further properties *)

(** ** The validator, continued *)

Section FlattenProperties.
Context {RT : JsRuntime}.
Import ValidationPipe.

Lemma list_sum_zero (l : list nat) : list_sum l = 0%nat <-> Forall (fun n => n = 0%nat) l.
Proof.
  induction l as [|n l IH].
  - split; [constructor | reflexivity].
  - change (list_sum (n :: l)) with (n + list_sum l)%nat. split.
    + intros H. constructor; [lia |]. apply IH. lia.
    + intros H. inversion H as [|? ? Hn Hl]; subst. apply IH in Hl. lia.
Qed.

(** X1: the flattened list has exactly one entry per violated constraint
    of the whole input, nested errors included, whatever the depth; it is
    empty exactly when no error of the input carries a constraint at any
    depth. *)
Theorem flatten_counts_every_violation :
  forall validationErrors : list ValidationError,
    List.length (customFlattenValidationErrors validationErrors)
    = list_sum (map violations validationErrors) /\
    (customFlattenValidationErrors validationErrors = []
     <-> Forall (fun e => violations e = 0%nat) validationErrors).
Proof.
  intros validationErrors.
  pose proof (customFlatten_length validationErrors) as Hlen.
  split; [exact Hlen |].
  rewrite <- length_zero_iff_nil, Hlen, list_sum_zero, Forall_map. reflexivity.
Qed.

(** X2: when no property name is empty, the entries come parent before
    children and children in order, and each is keyed by the names from
    the root to the violating property joined with dots, with the
    constraint's message and the property's rejected value. *)
Theorem flatten_keys_are_dotted_paths :
  forall validationErrors : list ValidationError,
    Forall named validationErrors ->
    customFlattenValidationErrors validationErrors
    = map (fun l => {| field := dotted (fst (fst l)); message := snd (fst l); value := snd l |})
          (flat_map (leaves []) validationErrors).
Proof.
  intros validationErrors Hnamed. unfold customFlattenValidationErrors.
  induction Hnamed as [|e rest He _ IH]; cbn [flat_map]; [reflexivity |].
  rewrite map_app, <- IH. f_equal.
  apply (extractErrors_paths e [] He). left. reflexivity.
Qed.
End FlattenProperties.

Lemma flatten_keys_are_dotted_paths_witness :
  map ValidationPipe.field
      (ValidationPipe.customFlattenValidationErrors Fixtures.nested_errors)
  = ["name"; "address.zip"; "address.zip"].
Proof.
  rewrite (flatten_keys_are_dotted_paths Fixtures.nested_errors).
  - reflexivity.
  - repeat constructor; discriminate.
Defined.

(** ** The date pipes, continued *)

Section DatePipeComposition.
Context {RT : JsRuntime}.
Import ParseDatePipe.

(** X3: the pipe hands the handler a date only for a non-empty string
    that the engine parses, and then it is that date; on a non-empty
    string the optional flag changes nothing. *)
Theorem transform_returns_only_parsed_dates :
  forall (pipe : Pipe) (value : option string) (metadata : ArgumentMetadata),
    (forall d, transform pipe value metadata = Returned (Some d)
               <-> exists s, value = Some s /\ s <> "" /\ Date_parse s = Some d) /\
    (forall s pipe', value = Some s -> s <> "" ->
                     transform pipe' value metadata = transform pipe value metadata).
Proof.
  intros pipe value metadata. split.
  - intros d. split.
    + unfold transform. destruct value as [s|]; cbn [is_empty].
      * destruct (String.eqb_spec s "") as [->|Hs].
        -- destruct (is_optional pipe); discriminate.
        -- destruct (Date_parse s) as [d'|] eqn:Hp; [| discriminate].
           intros H. injection H as <-. exists s. auto.
      * destruct (is_optional pipe); discriminate.
    + intros (s & -> & Hs & Hp). unfold transform.
      rewrite (is_empty_false s Hs), Hp. reflexivity.
  - intros s pipe' -> Hs. unfold transform. rewrite (is_empty_false s Hs). reflexivity.
Qed.

(** X4: whatever a date pipe throws reaches the client as status 400
    with the error name Bad Request and, as message, the pipe's own
    message: the one for a missing value or the one for an invalid
    value. *)
Theorem date_pipe_rejection_envelope :
  forall (pipe : Pipe) (value : option string) (metadata : ArgumentMetadata)
         (e : HttpException) (request : Request) (NODE_ENV : option string) (now : Z),
    transform pipe value metadata = Raised e ->
    let sent := GlobalExceptionFilter.catch (ThrownHttp e) request NODE_ENV now in
    let fields := json_fields (GlobalExceptionFilter.sent_body sent) in
    GlobalExceptionFilter.sent_status sent = 400 /\
    assoc "error" fields = Some (JStr "Bad Request") /\
    assoc "message" fields = Some (JStr (err_message (http_error e))) /\
    (err_message (http_error e) = expected_message metadata \/
     exists s, value = Some s /\ s <> "" /\ err_message (http_error e) = invalid_message metadata s).
Proof.
  intros pipe value metadata e request NODE_ENV now H.
  unfold transform in H.
  destruct (is_empty value) eqn:Hempty.
  - destruct (is_optional pipe); [discriminate |].
    injection H as <-. cbn. repeat split. left. reflexivity.
  - destruct value as [s|]; [| discriminate].
    destruct (Date_parse s); [discriminate |].
    injection H as <-. cbn. repeat split. right. exists s.
    split; [reflexivity | split; [| reflexivity]].
    intros ->. discriminate.
Qed.
End DatePipeComposition.

Lemma date_pipe_rejection_envelope_witness :
  assoc "message"
    (json_fields
       (GlobalExceptionFilter.sent_body
          (GlobalExceptionFilter.catch (RT := Fixtures.runtime)
             (ThrownHttp (Framework.new_BadRequestException (RT := Fixtures.runtime)
                (JStr (ParseDatePipe.invalid_message
                         {| ParseDatePipe.data := Some "date" |} "not-a-date"))))
             Fixtures.health_request (Some "production") 3)))
  = Some (JStr (ParseDatePipe.invalid_message
                  {| ParseDatePipe.data := Some "date" |} "not-a-date")).
Proof.
  exact (proj1 (proj2 (proj2
    (date_pipe_rejection_envelope (RT := Fixtures.runtime)
       ParseDatePipe.ParseDatePipe_default (Some "not-a-date")
       {| ParseDatePipe.data := Some "date" |} _
       Fixtures.health_request (Some "production") 3 eq_refl)))).
Defined.

(** ** The error normalizer, continued *)

Section FilterInvariants.
Context {RT : JsRuntime}.
Import GlobalExceptionFilter.

Lemma js_or_string_defined (a : JsValue) (s : string) : is_undefined (js_or a (JStr s)) = false.
Proof.
  unfold js_or. destruct a as [| |b|n|x|items|props]; cbn; try reflexivity.
  - destruct b; reflexivity.
  - destruct (n =? 0)%Z; reflexivity.
  - destruct (x =? ""); reflexivity.
Qed.

(** What the dispatch guarantees about the error name and the message. *)
Lemma classify_defined exception :
  is_undefined (snd (fst (classify exception))) = false /\
  (is_undefined (snd (fst (fst (classify exception)))) = true
   <-> exists e, exception = ThrownHttp e /\ http_response e = JUndefined).
Proof.
  destruct exception as [e|q|x|v].
  - destruct e as [err st r]. cbn [classify http_response http_status http_error].
    destruct r; cbn [fst snd]; rewrite ?js_or_string_defined; cbn [is_undefined];
      (split; [reflexivity |]);
      (split; [try discriminate; intros _; eexists; split; reflexivity
              | intros (e' & He & Hr); injection He as <-; cbn in Hr; try discriminate; reflexivity]).
  - cbn. split; [reflexivity |]. split; [discriminate | intros (e' & He & _); discriminate].
  - cbn. split; [reflexivity |]. split; [discriminate | intros (e' & He & _); discriminate].
  - cbn. split; [reflexivity |]. split; [discriminate | intros (e' & He & _); discriminate].
Qed.

Lemma classify_status exception :
  (forall e, exception = ThrownHttp e -> fst (fst (fst (classify exception))) = http_status e) /\
  ((forall e, exception <> ThrownHttp e) ->
   fst (fst (fst (classify exception))) = 400 \/ fst (fst (fst (classify exception))) = 500).
Proof.
  destruct exception as [e|q|x|v]; split.
  - intros e' H. injection H as <-. cbn. destruct (http_response e); reflexivity.
  - intros H. exfalso. apply (H e). reflexivity.
  - discriminate.
  - intros _. left. reflexivity.
  - discriminate.
  - intros _. right. reflexivity.
  - discriminate.
  - intros _. right. reflexivity.
Qed.

(** X5: in every branch the status code written in the envelope is the
    HTTP status of the response, and the envelope has an error name; the
    message is missing only for an HTTP exception built with an undefined
    response.  The status is the exception's own for an HTTP exception
    and 400 or 500 for every other failure. *)
Theorem envelope_status_matches_response :
  forall (exception : Thrown) (request : Request) (NODE_ENV : option string) (now : Z),
    let sent := catch exception request NODE_ENV now in
    let fields := json_fields (sent_body sent) in
    assoc "statusCode" fields = Some (JNum (sent_status sent)) /\
    has_field "error" fields = true /\
    (has_field "message" fields = false
     <-> exists e, exception = ThrownHttp e /\ http_response e = JUndefined) /\
    (forall e, exception = ThrownHttp e -> sent_status sent = http_status e) /\
    ((forall e, exception <> ThrownHttp e) -> sent_status sent = 400 \/ sent_status sent = 500).
Proof.
  intros exception request NODE_ENV now sent fields. subst sent fields.
  destruct (classify_defined exception) as [Herr Hmsg].
  destruct (classify_status exception) as [Hhttp Hother].
  unfold catch, has_field.
  destruct (classify exception) as [[[status message] error] branch_log].
  cbn [fst snd] in *.
  assert (Hspread : forall spread : list (string * JsValue),
             (forall k v, In (k, v) spread -> k = "stack") ->
             let fields := json_fields
                 (JObj ([("statusCode", JNum status); ("timestamp", JStr (toISOString now));
                         ("path", JStr (url request)); ("method", JStr (method request));
                         ("error", error); ("message", message)] ++ spread)%list) in
             assoc "statusCode" fields = Some (JNum status) /\
             assoc "error" fields <> None /\
             (assoc "message" fields = None <-> is_undefined message = true)).
  { intros spread Hs. cbn. rewrite Herr. cbn.
    split; [reflexivity | split; [discriminate |]].
    destruct (is_undefined message); cbn.
    - split; [reflexivity | intros _].
      induction spread as [|[k v] spread IH]; cbn; [reflexivity |].
      assert (k = "stack") as -> by (apply (Hs k v); left; reflexivity).
      destruct (is_undefined v); cbn; apply IH; intros k' v' Hin; apply (Hs k' v'); right; exact Hin.
    - split; discriminate. }
  assert (Hk : forall x : JsValue, forall k v, In (k, v) [("stack", x)] -> k = "stack").
  { intros x k v [H | []]. injection H as <- _. reflexivity. }
  assert (Hnil : forall k v, In (k, v) (@nil (string * JsValue)) -> k = "stack") by (intros k v []).
  assert (Hall :
    let fields := json_fields
        (JObj ([("statusCode", JNum status); ("timestamp", JStr (toISOString now));
                ("path", JStr (url request)); ("method", JStr (method request));
                ("error", error); ("message", message)]
               ++ match NODE_ENV with
                  | Some env => if env =? "development" then [("stack", stack_of exception)] else []
                  | None => []
                  end)%list) in
    assoc "statusCode" fields = Some (JNum status) /\
    assoc "error" fields <> None /\
    (assoc "message" fields = None <-> is_undefined message = true)).
  { destruct NODE_ENV as [env|]; [destruct (env =? "development") |];
      first [apply Hspread, (Hk (stack_of exception)) | apply Hspread, Hnil]. }
  cbv zeta in Hall. destruct Hall as (Hsc & He & Hm).
  cbn [sent_body sent_status].
  split; [exact Hsc |]. split.
  { destruct (assoc "error" _); [reflexivity | congruence]. }
  split.
  { rewrite <- Hmsg, <- Hm. destruct (assoc "message" _); split; congruence. }
  split; [exact Hhttp | exact Hother].
Qed.

(** X6: every record the filter logs is at error level; the last one is
    the summary line, and what it carries is exactly the envelope sent to
    the client.  An HTTP exception is logged with that record alone;
    every other failure gets one record before it, and for a data-layer
    failure that record holds the raw message and the stack, which the
    envelope does not. *)
Theorem filter_logs_the_envelope_it_sends :
  forall (exception : Thrown) (request : Request) (NODE_ENV : option string) (now : Z),
    let sent := catch exception request NODE_ENV now in
    exists before,
      logged sent
      = (before ++ [ {| log_level := LevelError;
                        log_text := method request ++ " " ++ url request ++ " - "
                                      ++ decimal (sent_status sent);
                        log_context := sent_body sent |} ])%list /\
      Forall (fun r => log_level r = LevelError) (logged sent) /\
      (forall e, exception = ThrownHttp e -> before = []) /\
      (forall q, exception = ThrownQueryFailed q ->
         before = [ {| log_level := LevelError;
                       log_text := "Database error: " ++ err_message q;
                       log_context := opt_str (err_stack q) |} ] /\
         assoc "message" (json_fields (sent_body sent)) = Some (JStr "Database query failed")) /\
      ((forall e, exception <> ThrownHttp e) -> List.length before = 1%nat).
Proof.
  intros exception request NODE_ENV now sent. subst sent.
  destruct exception as [e|q|x|v].
  - exists []. unfold catch. cbn [classify].
    destruct (http_response e); cbn;
      (split; [reflexivity |]); (split; [repeat constructor |]);
      (split; [reflexivity |]); (split; [discriminate |]);
      intros H; exfalso; apply (H e); reflexivity.
  - exists [ {| log_level := LevelError;
                log_text := "Database error: " ++ err_message q;
                log_context := opt_str (err_stack q) |} ].
    unfold catch. cbn [classify]. cbn.
    split; [reflexivity |]. split; [repeat constructor |].
    split; [discriminate |]. split; [| reflexivity].
    intros q' H. injection H as <-. split; reflexivity.
  - exists [ {| log_level := LevelError;
                log_text := "Unexpected error: " ++ err_message x;
                log_context := opt_str (err_stack x) |} ].
    unfold catch. cbn [classify]. cbn.
    split; [reflexivity |]. split; [repeat constructor |].
    split; [discriminate |]. split; [discriminate | reflexivity].
  - exists [ {| log_level := LevelError;
                log_text := "Unknown error occurred";
                log_context := v |} ].
    unfold catch. cbn [classify]. cbn.
    split; [reflexivity |]. split; [repeat constructor |].
    split; [discriminate |]. split; [discriminate | reflexivity].
Qed.

Lemma assoc_In_keys {A : Type} (k : string) (ps : list (string * A)) (v : A) :
  assoc k ps = Some v -> In k (map fst ps).
Proof.
  induction ps as [|[k' v'] ps IH]; cbn; [discriminate |].
  destruct (String.eqb_spec k' k) as [->|_]; [left; reflexivity | right; auto].
Qed.

Lemma json_fields_keys (k : string) (ps : list (string * JsValue)) :
  has_field k (json_fields (JObj ps)) = true -> In k (map fst ps).
Proof.
  unfold has_field. cbn [json_fields].
  destruct (assoc k (filter _ ps)) as [v|] eqn:H; [intros _ | discriminate].
  apply assoc_In_keys in H. rewrite in_map_iff in *.
  destruct H as (kv & Hk & Hin). apply filter_In in Hin. exists kv. tauto.
Qed.

(** The envelope has no field beyond these seven. *)
Lemma envelope_keys exception request NODE_ENV now k :
  has_field k (json_fields (sent_body (catch exception request NODE_ENV now))) = true ->
  In k ["statusCode"; "timestamp"; "path"; "method"; "error"; "message"; "stack"].
Proof.
  unfold catch. destruct (classify exception) as [[[status message] error] branch_log].
  cbn [sent_body]. intros H. apply json_fields_keys in H.
  rewrite map_app in H. cbn [map fst] in H.
  destruct NODE_ENV as [env|]; [destruct (env =? "development") |]; cbn in H |- *; tauto.
Qed.

(** X7: of the body the guard builds for a throttled request only the
    status, the message and the error name reach the client: the details
    text is dropped, and the timestamp and the path of the envelope are
    those of the filter (its clock, its request), not the ones the guard
    recorded. *)
Theorem throttling_details_do_not_reach_the_client :
  forall (context : ExecutionContext) (thrown_at : Z) (request : Request)
         (NODE_ENV : option string) (now : Z),
    let e := ThrottlerGuard.throwThrottlingException context thrown_at in
    let fields := json_fields (sent_body (catch (ThrownHttp e) request NODE_ENV now)) in
    get_prop (http_response e) "details"
      = JStr "Rate limit exceeded. Please try again later." /\
    get_prop (http_response e) "timestamp" = JStr (toISOString thrown_at) /\
    get_prop (http_response e) "path" = JStr (url (ctx_request context)) /\
    has_field "details" fields = false /\
    assoc "timestamp" fields = Some (JStr (toISOString now)) /\
    assoc "path" fields = Some (JStr (url request)).
Proof.
  intros context thrown_at request NODE_ENV now e fields. subst e fields.
  split; [reflexivity | split; [reflexivity | split; [reflexivity |]]].
  split.
  - destruct (has_field "details" _) eqn:H; [| reflexivity].
    apply envelope_keys in H. cbn in H.
    repeat (destruct H as [H | H]; [discriminate |]). contradiction.
  - pose proof (envelope_common_fields
                  (ThrownHttp (ThrottlerGuard.throwThrottlingException context thrown_at))
                  request NODE_ENV now) as H.
    cbv zeta in H. tauto.
Qed.

(** X8: whatever the failure and whatever its response carries, the
    envelope has no field besides statusCode, timestamp, path, method,
    error, message and stack: any other property of an exception's
    response (details, errors, a code of its own) is not passed on. *)
Theorem envelope_has_no_other_field :
  forall (exception : Thrown) (request : Request) (NODE_ENV : option string) (now : Z)
         (k : string),
    has_field k (json_fields (sent_body (catch exception request NODE_ENV now))) = true ->
    In k ["statusCode"; "timestamp"; "path"; "method"; "error"; "message"; "stack"] /\
    (k = "stack" -> NODE_ENV = Some "development").
Proof.
  intros exception request NODE_ENV now k H. split.
  - exact (envelope_keys exception request NODE_ENV now k H).
  - intros ->. apply (stack_field_only_in_development exception request NODE_ENV now) in H.
    tauto.
Qed.
End FilterInvariants.

Lemma envelope_has_no_other_field_witness :
  In "error" ["statusCode"; "timestamp"; "path"; "method"; "error"; "message"; "stack"].
Proof.
  refine (proj1 (envelope_has_no_other_field (RT := Fixtures.runtime)
                   (ThrownOther JNull) Fixtures.health_request None 0 "error" _)).
  reflexivity.
Defined.

(** ** The guard and the tiers, continued *)

Lemma length_append (a b : string) :
  String.length (a ++ b) = (String.length a + String.length b)%nat.
Proof.
  induction a as [|c a IH]; cbn; [reflexivity | rewrite IH; reflexivity].
Qed.

Lemma append_inj_r (a b c : string) : a ++ c = b ++ c -> a = b.
Proof.
  revert b. induction a as [|x a IH]; intros [|y b] H; cbn in H.
  - reflexivity.
  - apply (f_equal String.length) in H. cbn in H. rewrite length_append in H. lia.
  - apply (f_equal String.length) in H. cbn in H. rewrite length_append in H. lia.
  - injection H as -> H. f_equal. apply IH, H.
Qed.

Lemma str_or_not_empty (s : option string) (d : string) : d <> "" -> str_or s d <> "".
Proof.
  intros Hd. unfold str_or. destruct s as [x|]; [| exact Hd].
  destruct (String.eqb_spec x ""); assumption.
Qed.

(** X9: for one client and one route, two tiers with different names
    never count on the same bucket key, whatever the names, the address
    and the route contain; and the client address in the key is never
    empty. *)
Theorem tiers_never_share_a_bucket :
  forall (context : ExecutionContext) (tracker name1 name2 : string),
    name1 <> name2 ->
    ThrottlerGuard.generateKey context tracker name1
      <> ThrottlerGuard.generateKey context tracker name2 /\
    ThrottlerGuard.getTracker (ctx_request context) <> "".
Proof.
  intros context tracker name1 name2 Hne. split.
  - unfold ThrottlerGuard.generateKey. intros H. apply Hne.
    apply (append_inj_r name1 name2 _ H).
  - unfold ThrottlerGuard.getTracker.
    apply str_or_not_empty, str_or_not_empty. discriminate.
Qed.

Lemma tiers_never_share_a_bucket_witness :
  ThrottlerGuard.generateKey Fixtures.lenient_context "10.0.0.7" "short"
    <> ThrottlerGuard.generateKey Fixtures.lenient_context "10.0.0.7" "medium".
Proof.
  refine (proj1 (tiers_never_share_a_bucket Fixtures.lenient_context "10.0.0.7"
                   "short" "medium" _)).
  discriminate.
Defined.



(** Beyond that bound the products are rounded and the rates part: with
    the largest safe integer as window the medium window is
    90071992547409904, not ten times the short one. *)
Lemma rounded_tiers_example :
  map ttl (AppModule.throttlers Fixtures.config_ttl_max_safe)
  = [9007199254740991; 90071992547409904; 540431955284459456] /\
  map limit (AppModule.throttlers Fixtures.config_ttl_max_safe) = [3; 30; 180].
Proof. split; vm_compute; reflexivity. Qed.

(** X11: the key under which Custom declares its limit, default, is not
    the name of any tier the application configures, whatever the limit,
    the window and the configuration; the key of Strict, Moderate and
    Lenient, short, is. *)
Theorem custom_names_no_configured_tier :
  forall (configService : ConfigService) (l : Z) (w : option Z),
    let configured := map name (AppModule.throttlers configService) in
    (forall k, In k (map fst (ThrottleEndpoint.Custom l w)) -> ~ In k configured) /\
    (forall meta k,
        In meta [ThrottleEndpoint.Strict; ThrottleEndpoint.Moderate; ThrottleEndpoint.Lenient] ->
        In k (map fst meta) -> In k configured).
Proof.
  intros configService l w configured. subst configured. split.
  - intros k [<- | []] H. cbn in H. intuition discriminate.
  - intros meta k Hmeta Hk. cbn in Hmeta.
    destruct Hmeta as [<- | [<- | [<- | []]]]; cbn in Hk; destruct Hk as [<- | []];
      cbn; tauto.
Qed.

(** ** The logger, continued *)

Section LoggerTransparency.
Context {RT : JsRuntime}.
Import LoggingInterceptor.

Variable request : Request.
Variable now : Z.

Lemma tap_transparent values ending :
  Forall (fun tv => JSON_stringify (snd tv) <> None) values ->
  (forall e, snd ending = Failed e -> message_of e <> None) ->
  snd (tap (on_next request now) (on_error request now) values ending)
  = {| emissions := values; terminal := ending |} /\
  List.length (fst (tap (on_next request now) (on_error request now) values ending))
  = (List.length values + match snd ending with Failed _ => 1 | Complete => 0 end)%nat.
Proof.
  intros Hvalues Hending.
  induction Hvalues as [|[tk v] rest Hv _ IH]; cbn [tap].
  - destruct ending as [tk [|e]]; cbn; [split; reflexivity |].
    unfold on_error. destruct (message_of e) eqn:Hm; cbn; [split; reflexivity |].
    exfalso. apply (Hending e); [reflexivity | exact Hm].
  - cbn [snd] in Hv. unfold on_next at 1 3.
    destruct (JSON_stringify v); [| congruence].
    destruct IH as [IHout IHlen].
    destruct (tap _ _ rest ending) as [logs out]. cbn [fst snd] in *.
    subst out. cbn. rewrite IHlen. split; reflexivity.
Qed.

Lemma tap_cut before tk v after ending :
  Forall (fun tv => JSON_stringify (snd tv) <> None) before ->
  JSON_stringify v = None ->
  snd (tap (on_next request now) (on_error request now)
           (before ++ (tk, v) :: after)%list ending)
  = {| emissions := before;
       terminal := (tk, Failed (ThrownError (TypeError_read "length"))) |} /\
  List.length (fst (tap (on_next request now) (on_error request now)
                        (before ++ (tk, v) :: after)%list ending))
  = List.length before.
Proof.
  intros Hbefore Hv.
  induction Hbefore as [|[tk0 v0] rest Hv0 _ IH]; cbn [tap app].
  - unfold on_next. rewrite Hv. split; reflexivity.
  - cbn [snd] in Hv0. unfold on_next at 1 3.
    destruct (JSON_stringify v0); [| congruence].
    destruct IH as [IHout IHlen].
    destruct (tap _ _ (rest ++ (tk, v) :: after)%list ending) as [logs out].
    cbn [fst snd] in *. subst out. cbn. rewrite IHlen. split; reflexivity.
Qed.

Lemma intercept_end_records handled :
  count_records is_end (fst (intercept request now handled))
  = List.length (fst (tap (on_next request now) (on_error request now)
                          (emissions handled) (terminal handled))).
Proof.
  unfold intercept.
  pose proof (tap_logs_end_records request now (emissions handled) (terminal handled)) as H.
  destruct (tap _ _ (emissions handled) (terminal handled)) as [logs out]. cbn [fst] in *.
  apply count_start_of_end_records in H. destruct H as [_ H].
  unfold count_records in *. cbn [filter].
  rewrite (proj2 (start_record_is_start request now)). exact H.
Qed.

Lemma interceptor_passes :
  forall handled : Observable,
    Forall (fun tv => JSON_stringify (snd tv) <> None) (emissions handled) ->
    (forall e, snd (terminal handled) = Failed e -> message_of e <> None) ->
    snd (intercept request now handled) = handled /\
    count_records is_end (fst (intercept request now handled))
    = (List.length (emissions handled)
       + match snd (terminal handled) with Failed _ => 1 | Complete => 0 end)%nat.
Proof.
  intros handled Hvalues Hending.
  destruct (tap_transparent (emissions handled) (terminal handled) Hvalues Hending)
    as [Hout Hlen].
  split.
  - unfold intercept.
    destruct (tap _ _ (emissions handled) (terminal handled)) as [logs out].
    cbn [fst snd] in *. subst out. destruct handled; reflexivity.
  - rewrite intercept_end_records. exact Hlen.
Qed.

(** X12: when every value the handler emits serialises to JSON and the
    failure it ends with, if any, is not undefined or null, the stream
    leaves the interceptor exactly as it entered it (same values, same
    order, same end), and the log has one end record per value plus one
    for the failure. *)
Theorem interceptor_passes_the_stream_unchanged :
  forall handled : Observable,
    Forall (fun tv => JSON_stringify (snd tv) <> None) (emissions handled) ->
    (forall e, snd (terminal handled) = Failed e -> message_of e <> None) ->
    snd (intercept request now handled) = handled /\
    count_records is_end (fst (intercept request now handled))
    = (List.length (emissions handled)
       + match snd (terminal handled) with Failed _ => 1 | Complete => 0 end)%nat.
Proof.
  intros handled Hvalues Hending. split.
  - apply (interceptor_passes handled Hvalues Hending).
  - apply (interceptor_passes handled Hvalues Hending).
Qed.

(** X13: a value whose JSON serialisation is undefined ends the stream
    where it stands: the values before it are passed on and logged, the
    value itself and everything after it are dropped together with the
    stream's own end, the stream fails with the TypeError of reading
    length, and no end record is logged for that failure. *)
Theorem interceptor_fails_on_unserialisable_value :
  forall (before : list (Tick * JsValue)) (tk : Tick) (v : JsValue)
         (after : list (Tick * JsValue)) (ending : Tick * Terminal),
    Forall (fun tv => JSON_stringify (snd tv) <> None) before ->
    JSON_stringify v = None ->
    let handled := {| emissions := (before ++ (tk, v) :: after)%list; terminal := ending |} in
    snd (intercept request now handled)
    = {| emissions := before;
         terminal := (tk, Failed (ThrownError (TypeError_read "length"))) |} /\
    count_records is_end (fst (intercept request now handled)) = List.length before /\
    count_records is_start (fst (intercept request now handled)) = 1%nat.
Proof.
  intros before tk v after ending Hbefore Hv handled. subst handled.
  destruct (tap_cut before tk v after ending Hbefore Hv) as [Hout Hlen].
  split; [| split].
  - unfold intercept. cbn [emissions terminal].
    destruct (tap _ _ (before ++ (tk, v) :: after)%list ending) as [logs out].
    cbn [fst snd] in *. exact Hout.
  - rewrite intercept_end_records. exact Hlen.
  - apply intercept_one_start.
Qed.

(** X14: when the handler throws an HTTP exception, the status code in
    the logger's end record is the status the response has at that
    moment (500 when it has none), not the status of the exception,
    while the envelope the filter then sends carries the exception's
    status: the two differ whenever the exception's status is not the
    one the response already had. *)
Theorem logged_status_is_not_the_status_sent :
  forall (e : HttpException) (tk : Tick) (NODE_ENV : option string),
    let handled := {| emissions := []; terminal := (tk, Failed (ThrownHttp e)) |} in
    let served := Lifecycle.serve None request handled NODE_ENV now in
    exists r sent,
      Lifecycle.interceptor_log served = [start_record request now; r] /\
      get_prop (log_context r) "statusCode" = JNum (status_or_500 (tick_statusCode tk)) /\
      Lifecycle.failure_sent served = Some sent /\
      GlobalExceptionFilter.sent_status sent = http_status e /\
      assoc "statusCode" (json_fields (GlobalExceptionFilter.sent_body sent))
        = Some (JNum (http_status e)).
Proof.
  intros e tk NODE_ENV handled served. subst handled served.
  unfold Lifecycle.serve, intercept. cbn [emissions terminal tap].
  unfold on_error. cbn [message_of]. cbn [fst snd Lifecycle.interceptor_log
    Lifecycle.failure_sent terminal].
  do 2 eexists. split; [reflexivity |]. split; [reflexivity |]. split; [reflexivity |].
  pose proof (envelope_common_fields (ThrownHttp e) request NODE_ENV (tick_now tk)) as H.
  cbv zeta in H. destruct H as (Hsc & _).
  assert (Hst : GlobalExceptionFilter.sent_status
                  (GlobalExceptionFilter.catch (ThrownHttp e) request NODE_ENV (tick_now tk))
                = http_status e).
  { unfold GlobalExceptionFilter.catch. cbn [GlobalExceptionFilter.classify].
    destruct (http_response e); reflexivity. }
  rewrite Hsc, Hst. split; reflexivity.
Qed.

(** X15: the start record always carries the timestamp, the method, the
    url, the address and the user agent; the request body is in it
    exactly when the method is not GET and a body is defined, and the
    query and the route parameters exactly when they are not empty. *)
Theorem start_record_content :
  let fields := json_fields (log_context (start_record request now)) in
  assoc "method" fields = Some (JStr (method request)) /\
  assoc "url" fields = Some (JStr (url request)) /\
  assoc "ip" fields = Some (JStr (client_ip request)) /\
  assoc "userAgent" fields = Some (JStr (userAgent request)) /\
  (has_field "body" fields = true
   <-> method request <> "GET" /\ body request <> JUndefined) /\
  (has_field "query" fields = true <-> query request <> []) /\
  (has_field "params" fields = true <-> params request <> []).
Proof.
  cbv zeta. unfold start_record, has_field. cbn [log_context json_fields].
  repeat (split; [reflexivity |]).
  destruct (String.eqb_spec (method request) "GET") as [Hm|Hm];
    destruct (body request) as [| |b|n|x|items|props];
    destruct (query request) as [|q0 qs];
    destruct (params request) as [|p0 ps];
    cbn; repeat split; intros; try discriminate; try tauto; try congruence;
    try (intros ?; discriminate);
    match goal with
    | H : _ /\ _ |- _ => destruct H; congruence
    | _ => idtac
    end.
Qed.
End LoggerTransparency.

Lemma interceptor_passes_the_stream_unchanged_witness :
  snd (LoggingInterceptor.intercept (RT := Fixtures.runtime) Fixtures.health_request 0
         (Fixtures.handler_returns (JStr "ok")))
  = Fixtures.handler_returns (JStr "ok").
Proof.
  refine (proj1 (interceptor_passes_the_stream_unchanged (RT := Fixtures.runtime)
                   Fixtures.health_request 0 (Fixtures.handler_returns (JStr "ok")) _ _)).
  - repeat constructor; discriminate.
  - discriminate.
Defined.

Lemma interceptor_fails_on_unserialisable_value_witness :
  LoggingInterceptor.count_records LoggingInterceptor.is_end
    (fst (LoggingInterceptor.intercept (RT := Fixtures.runtime) Fixtures.health_request 0
            Examples.three_values)) = 1%nat.
Proof.
  refine (proj1 (proj2 (interceptor_fails_on_unserialisable_value (RT := Fixtures.runtime)
                          Fixtures.health_request 0
                          [ ({| tick_now := 3; tick_statusCode := Some 200 |}, JStr "a") ]
                          {| tick_now := 4; tick_statusCode := Some 200 |} JUndefined
                          [ ({| tick_now := 5; tick_statusCode := Some 200 |}, JStr "c") ]
                          ({| tick_now := 6; tick_statusCode := Some 200 |}, Complete) _ _))).
  - repeat constructor; discriminate.
  - reflexivity.
Defined.

(** ** The package-manager script *)

Section DetectPmProperties.
Import DetectPm.

Lemma includes_drop_first (c : ascii) (sub s : string) :
  includes (String c sub) s = true -> includes sub s = true.
Proof.
  induction s as [|x rest IH].
  - cbn. discriminate.
  - change (includes (String c sub) (String x rest))
      with (if String.prefix (String c sub) (String x rest) then true
            else includes (String c sub) rest).
    change (includes sub (String x rest))
      with (if String.prefix sub (String x rest) then true else includes sub rest).
    destruct (String.prefix sub (String x rest)) eqn:Hp; [reflexivity |].
    cbn [String.prefix]. destruct (ascii_dec c x) as [_|_].
    + destruct (String.prefix sub rest) eqn:Hr.
      * intros _. destruct rest as [|y rest']; destruct sub as [|d sub'];
          cbn in Hr |- *; try reflexivity; try discriminate.
        rewrite Hr. reflexivity.
      * exact IH.
    + exact IH.
Qed.

(** Every user agent that mentions pnpm also contains npm. *)
Lemma includes_pnpm_npm (s : string) : includes "pnpm" s = true -> includes "npm" s = true.
Proof. apply includes_drop_first. Qed.

Lemma firstLockFile_first env files detected :
  firstLockFile env files = Some detected ->
  exists before file after,
    files = (before ++ (file, detected) :: after)%list /\
    existsSync env file = true /\
    Forall (fun fd => existsSync env (fst fd) = false) before.
Proof.
  induction files as [|[file d] rest IH]; cbn [firstLockFile]; [discriminate |].
  destruct (existsSync env file) eqn:Hex.
  - intros H. injection H as <-. exists [], file, rest. repeat split; [exact Hex | constructor].
  - intros H. destruct (IH H) as (before & file' & after & -> & Hex' & Hb).
    exists ((file, d) :: before), file', after. repeat split; [exact Hex' |].
    constructor; [exact Hex | exact Hb].
Qed.

Lemma firstLockFile_some env files file detected :
  In (file, detected) files -> existsSync env file = true ->
  firstLockFile env files <> None.
Proof.
  induction files as [|[file' d] rest IH]; cbn [firstLockFile In]; [tauto |].
  intros [H | H] Hex.
  - injection H as -> ->. rewrite Hex. discriminate.
  - destruct (existsSync env file'); [discriminate | apply IH; assumption].
Qed.

Lemma firstLockFile_ext env env' files :
  (forall file, existsSync env file = existsSync env' file) ->
  firstLockFile env files = firstLockFile env' files.
Proof.
  intros H. induction files as [|[file d] rest IH]; cbn [firstLockFile]; [reflexivity |].
  rewrite <- (H file), IH. reflexivity.
Qed.

Lemma detect_known env :
  bun = detectPackageManager env \/ pnpm = detectPackageManager env \/
  yarn = detectPackageManager env \/ npm = detectPackageManager env.
Proof.
  unfold detectPackageManager, lockFiles. cbn [firstLockFile].
  repeat match goal with
         | |- context [if ?b then _ else _] => destruct b
         end; tauto.
Qed.

(** X16: the script always answers with one of bun, pnpm, yarn and npm,
    and the command it gives is the manager's name. *)
Theorem detect_answers_a_known_manager :
  forall env : Environment,
    In (detectPackageManager env) [bun; pnpm; yarn; npm] /\
    command (detectPackageManager env) = pm (detectPackageManager env).
Proof.
  intros env. destruct (detect_known env) as [H | [H | [H | H]]]; rewrite <- H; cbn; tauto.
Qed.

(** X17: as soon as one lock file exists, the first existing one in the
    order bun.lockb, pnpm-lock.yaml, yarn.lock, package-lock.json decides
    the answer; the user agent and the installed commands play no part. *)
Theorem lock_file_decides :
  forall (env : Environment) (file : string) (detected : Detected),
    In (file, detected) lockFiles ->
    existsSync env file = true ->
    (exists before first after,
        lockFiles = (before ++ (first, detectPackageManager env) :: after)%list /\
        existsSync env first = true /\
        Forall (fun fd => existsSync env (fst fd) = false) before) /\
    (forall env' : Environment,
        (forall f, existsSync env' f = existsSync env f) ->
        detectPackageManager env' = detectPackageManager env).
Proof.
  intros env file detected Hin Hex.
  pose proof (firstLockFile_some env lockFiles file detected Hin Hex) as Hsome.
  split.
  - unfold detectPackageManager.
    destruct (firstLockFile env lockFiles) as [d|] eqn:Hd; [| congruence].
    apply (firstLockFile_first env lockFiles d Hd).
  - intros env' Hsame. unfold detectPackageManager.
    rewrite (firstLockFile_ext env' env lockFiles Hsame).
    destruct (firstLockFile env lockFiles); [reflexivity | congruence].
Qed.

(** X18: without a lock file the user agent decides, read in the order
    bun, pnpm, yarn, npm: the first of the four names it contains is the
    answer, whatever else it contains and whatever is installed (so an
    agent that mentions bun gives bun even if it mentions pnpm, and one
    that mentions pnpm gives pnpm although it always contains npm too).
    Only an agent that contains none of the four leaves the choice to the
    installed commands, tried in the order bun, pnpm, yarn, with npm as
    the last resort. *)
Theorem user_agent_is_read_in_priority_order :
  forall env : Environment,
    (forall file detected, In (file, detected) lockFiles -> existsSync env file = false) ->
    let userAgent := str_or (npm_config_user_agent env) "" in
    (includes "bun" userAgent = true -> detectPackageManager env = bun) /\
    (includes "bun" userAgent = false -> includes "pnpm" userAgent = true ->
     detectPackageManager env = pnpm /\ includes "npm" userAgent = true) /\
    (includes "bun" userAgent = false -> includes "pnpm" userAgent = false ->
     includes "yarn" userAgent = true ->
     detectPackageManager env = yarn) /\
    (includes "bun" userAgent = false -> includes "pnpm" userAgent = false ->
     includes "yarn" userAgent = false -> includes "npm" userAgent = true ->
     detectPackageManager env = npm) /\
    (includes "bun" userAgent = false -> includes "pnpm" userAgent = false ->
     includes "yarn" userAgent = false -> includes "npm" userAgent = false ->
     detectPackageManager env
     = if checkCommand env "bun" then bun
       else if checkCommand env "pnpm" then pnpm
       else if checkCommand env "yarn" then yarn
       else npm).
Proof.
  intros env Hnone userAgent.
  assert (Hlock : firstLockFile env lockFiles = None).
  { unfold lockFiles. cbn [firstLockFile].
    rewrite (Hnone "bun.lockb" bun), (Hnone "pnpm-lock.yaml" pnpm),
      (Hnone "yarn.lock" yarn), (Hnone "package-lock.json" npm);
      cbn; tauto. }
  unfold detectPackageManager. rewrite Hlock. fold userAgent.
  split; [| split; [| split; [| split]]].
  - intros Hb. rewrite Hb. reflexivity.
  - intros Hb Hp. rewrite Hb, Hp. split; [reflexivity | apply includes_pnpm_npm, Hp].
  - intros Hb Hp Hy. rewrite Hb, Hp, Hy. reflexivity.
  - intros Hb Hp Hy Hn. rewrite Hb, Hp, Hy, Hn. reflexivity.
  - intros Hb Hp Hy Hn. rewrite Hb, Hp, Hy, Hn. reflexivity.
Qed.

(** X19: for the manager the script detects, the install command is the
    manager's name followed by install, and the run command is the name
    followed by run and the script, except for yarn, which takes the
    script directly; neither ever falls back to the npm default or to an
    inherited member. *)
Theorem commands_of_the_detected_manager :
  forall (env : Environment) (script : string),
    let detected := detectPackageManager env in
    getInstallCommand (pm detected) = Value (pm detected ++ " install") /\
    getRunCommand (pm detected) script
    = Value (if pm detected =? "yarn" then "yarn " ++ script
             else pm detected ++ " run " ++ script) /\
    cli ["--install"] env = Some (pm detected ++ " install").
Proof.
  intros env script detected. subst detected.
  destruct (detect_known env) as [H | [H | [H | H]]];
    unfold cli; cbn [existsb String.eqb Ascii.eqb Bool.eqb orb]; rewrite <- H; cbn;
    repeat split.
Qed.

(** X20: for a manager name that is none of the four and no member of
    Object.prototype the run command is that of npm; for the name of a
    member of Object.prototype the function does not return a string at
    all but that member. *)
Theorem run_command_of_an_unknown_manager :
  forall pm script : string,
    ~ In pm ["npm"; "yarn"; "pnpm"; "bun"] ->
    (~ In pm object_prototype_members ->
     getRunCommand pm script = Value ("npm run " ++ script) /\
     getInstallCommand pm = Value "npm install") /\
    (In pm object_prototype_members ->
     getRunCommand pm script = InheritedValue pm /\
     getInstallCommand pm = InheritedValue pm).
Proof.
  intros pm script Hpm.
  assert (Hown : forall A (a b c d : A),
             assoc pm [("npm", a); ("yarn", b); ("pnpm", c); ("bun", d)] = None).
  { intros A a b c d. cbn [assoc].
    destruct (String.eqb_spec "npm" pm) as [<-|_]; [exfalso; apply Hpm; cbn; tauto |].
    destruct (String.eqb_spec "yarn" pm) as [<-|_]; [exfalso; apply Hpm; cbn; tauto |].
    destruct (String.eqb_spec "pnpm" pm) as [<-|_]; [exfalso; apply Hpm; cbn; tauto |].
    destruct (String.eqb_spec "bun" pm) as [<-|_]; [exfalso; apply Hpm; cbn; tauto |].
    reflexivity. }
  assert (Hmem : existsb (String.eqb pm) object_prototype_members = true
                 <-> In pm object_prototype_members).
  { rewrite existsb_exists. split.
    - intros (x & Hin & Heq). apply String.eqb_eq in Heq. subst x. exact Hin.
    - intros Hin. exists pm. split; [exact Hin | apply String.eqb_refl]. }
  unfold getRunCommand, getInstallCommand, member_or, member. rewrite !Hown.
  split; intros H.
  - destruct (existsb (String.eqb pm) object_prototype_members) eqn:He.
    + exfalso. apply H, Hmem. reflexivity.
    + split; reflexivity.
  - apply Hmem in H. rewrite H. split; reflexivity.
Qed.
End DetectPmProperties.

Lemma lock_file_decides_witness :
  DetectPm.detectPackageManager
    {| DetectPm.existsSync := DetectPm.existsSync Examples.yarn_checkout;
       DetectPm.npm_config_user_agent := None;
       DetectPm.checkCommand := fun _ => false |}
  = DetectPm.detectPackageManager Examples.yarn_checkout.
Proof.
  refine (proj2 (lock_file_decides Examples.yarn_checkout "yarn.lock" DetectPm.yarn _ eq_refl)
                _ _).
  - cbn. tauto.
  - intros f. reflexivity.
Defined.

Lemma user_agent_is_read_in_priority_order_witness :
  DetectPm.detectPackageManager Examples.pnpm_agent = DetectPm.pnpm.
Proof.
  refine (proj1 (proj1 (proj2 (user_agent_is_read_in_priority_order Examples.pnpm_agent _))
                       eq_refl eq_refl)).
  intros file detected _. reflexivity.
Defined.

(** An agent that mentions both bun and pnpm gives bun; an agent that
    mentions only npm gives npm although bun is installed. *)
Lemma user_agent_order_examples :
  DetectPm.detectPackageManager
    {| DetectPm.existsSync := fun _ => false;
       DetectPm.npm_config_user_agent := Some "pnpm/8.6.0 bun/1.0.0 npm/? node/v20.0.0";
       DetectPm.checkCommand := fun _ => true |} = DetectPm.bun /\
  DetectPm.detectPackageManager
    {| DetectPm.existsSync := fun _ => false;
       DetectPm.npm_config_user_agent := Some "npm/10.2.0 node/v20.0.0 linux x64";
       DetectPm.checkCommand := fun _ => true |} = DetectPm.npm.
Proof. split; vm_compute; reflexivity. Qed.

Lemma run_command_of_an_unknown_manager_witness :
  DetectPm.getRunCommand "deno" "build" = Value "npm run build".
Proof.
  refine (proj1 (proj1 (run_command_of_an_unknown_manager "deno" "build" _) _)).
  - cbn. intuition discriminate.
  - cbn. intuition discriminate.
Defined.

(** ** The logger configuration *)

(** X21: whatever level is configured, unless it names a member of
    Object.prototype, the enabled levels are the first one to five of
    error, warn, log, debug, verbose: error is always enabled and a level
    is never enabled without the more severe ones.  A level that is not
    one of the five, such as info, enables what log enables. *)
Theorem log_levels_are_nested :
  forall level : string,
    (forall enabled, CustomNestLogger.getLogLevels level = Value enabled ->
       In "error" enabled /\
       exists n, (1 <= n <= 5)%nat /\
                 enabled = firstn n ["error"; "warn"; "log"; "debug"; "verbose"]) /\
    (assoc level CustomNestLogger.levels = None ->
     ~ In level object_prototype_members ->
     CustomNestLogger.getLogLevels level = CustomNestLogger.getLogLevels "log") /\
    (forall k, CustomNestLogger.getLogLevels level = InheritedValue k ->
               k = level /\ In level object_prototype_members).
Proof.
  intros level.
  assert (Hmem : existsb (String.eqb level) object_prototype_members = true
                 <-> In level object_prototype_members).
  { rewrite existsb_exists. split.
    - intros (x & Hin & Heq). apply String.eqb_eq in Heq. subst x. exact Hin.
    - intros Hin. exists level. split; [exact Hin | apply String.eqb_refl]. }
  unfold CustomNestLogger.getLogLevels, member_or, member, CustomNestLogger.levels.
  cbn [assoc].
  destruct (String.eqb "error" level);
    [| destruct (String.eqb "warn" level);
       [| destruct (String.eqb "log" level);
          [| destruct (String.eqb "debug" level);
             [| destruct (String.eqb "verbose" level)]]]].
  - split; [| split]; [| discriminate | discriminate].
    intros enabled H. injection H as <-. split; [cbn; tauto |]. exists 1%nat. split; [lia | reflexivity].
  - split; [| split]; [| discriminate | discriminate].
    intros enabled H. injection H as <-. split; [cbn; tauto |]. exists 2%nat. split; [lia | reflexivity].
  - split; [| split]; [| discriminate | discriminate].
    intros enabled H. injection H as <-. split; [cbn; tauto |]. exists 3%nat. split; [lia | reflexivity].
  - split; [| split]; [| discriminate | discriminate].
    intros enabled H. injection H as <-. split; [cbn; tauto |]. exists 4%nat. split; [lia | reflexivity].
  - split; [| split]; [| discriminate | discriminate].
    intros enabled H. injection H as <-. split; [cbn; tauto |]. exists 5%nat. split; [lia | reflexivity].
  - destruct (existsb (String.eqb level) object_prototype_members) eqn:He.
    + split; [discriminate | split].
      * intros _ Hn. exfalso. apply Hn, Hmem. reflexivity.
      * intros k H. injection H as <-. split; [reflexivity | apply Hmem; reflexivity].
    + split; [| split; [reflexivity | discriminate]].
      intros enabled H. injection H as <-. split; [cbn; tauto |]. exists 3%nat. split; [lia | reflexivity].
Qed.

(** ** The database options *)

Section DatabaseProperties.
Import Database.

(** X22: in the module and in the CLI data source alike, schema
    synchronisation and query logging are on exactly in development and
    TLS exactly in production, so synchronisation is never on together
    with TLS; and when TLS is on, the server certificate is not
    verified. *)
Theorem synchronize_never_in_production :
  forall (get : string -> JsValue) (dirname : string),
    let m := useFactory get dirname in
    let d := AppDataSource get in
    d_synchronize d = m_synchronize m /\
    d_logging d = m_logging m /\
    d_ssl d = m_ssl m /\
    m_logging m = m_synchronize m /\
    (m_synchronize m = true <-> get "NODE_ENV" = JStr "development") /\
    (m_ssl m <> None <-> get "NODE_ENV" = JStr "production") /\
    (m_synchronize m = true -> m_ssl m = None) /\
    (forall s, m_ssl m = Some s -> rejectUnauthorized s = false).
Proof.
  intros get dirname m d. subst m d. cbn.
  assert (Heq : forall s, strict_eq (get "NODE_ENV") s = true <-> get "NODE_ENV" = JStr s).
  { intros s. unfold strict_eq. destruct (get "NODE_ENV"); try (split; discriminate).
    rewrite String.eqb_eq. split; [intros ->; reflexivity | intros H; injection H as ->; reflexivity]. }
  repeat split; try reflexivity.
  - apply Heq.
  - apply Heq.
  - intros H. apply Heq. destruct (strict_eq (get "NODE_ENV") "production"); [reflexivity | congruence].
  - intros H. apply Heq in H. rewrite H. discriminate.
  - intros H. apply Heq in H. rewrite H. cbn. reflexivity.
  - intros s. destruct (strict_eq (get "NODE_ENV") "production"); [| discriminate].
    intros H. injection H as <-. reflexivity.
Qed.

(** X23: the module and the CLI data source connect to the same host,
    port, user, password and database whenever each of the five settings
    is either unset or truthy (a setting that is set to the empty string
    is kept by the module and replaced by the default in the data
    source, as [empty_host_example] shows). *)
Theorem module_and_data_source_agree :
  forall (get : string -> JsValue) (dirname : string),
    (forall k, In k ["DB_HOST"; "DB_PORT"; "DB_USERNAME"; "DB_PASSWORD"; "DB_NAME"] ->
               get k = JUndefined \/ truthy (get k) = true) ->
    let m := useFactory get dirname in
    let d := AppDataSource get in
    d_host d = m_host m /\ d_port d = m_port m /\ d_username d = m_username m /\
    d_password d = m_password m /\ d_database d = m_database m.
Proof.
  intros get dirname H m d. subst m d. cbn.
  assert (Hagree : forall k dflt,
             get k = JUndefined \/ truthy (get k) = true ->
             js_or (get k) dflt = js_nullish (get k) dflt).
  { intros k dflt [Hk | Hk]; unfold js_or, js_nullish.
    - rewrite Hk. reflexivity.
    - rewrite Hk. destruct (get k); try reflexivity; discriminate. }
  repeat split; apply Hagree, H; cbn; tauto.
Qed.
End DatabaseProperties.

Lemma module_and_data_source_agree_witness :
  Database.d_host (Database.AppDataSource Examples.production)
  = Database.m_host (Database.useFactory Examples.production "/app/dist/database").
Proof.
  refine (proj1 (module_and_data_source_agree Examples.production "/app/dist/database" _)).
  intros k Hk. cbn in Hk.
  destruct Hk as [<- | [<- | [<- | [<- | [<- | []]]]]]; cbn; tauto.
Defined.

(** An empty host: kept by the module, replaced by the data source. *)
Lemma empty_host_example :
  Database.m_host (Database.useFactory (fun _ => JStr "") "/app") = JStr "" /\
  Database.d_host (Database.AppDataSource (fun _ => JStr "")) = JStr "localhost".
Proof. split; reflexivity. Qed.

(** ** The date range endpoint *)

Section DateRangeProperties.
Context {RT : JsRuntime}.
Import DateExampleController.

Lemma ceil_div_day_sign (a : Z) :
  (0 < ceil_div a day <-> 0 < a) /\
  (0 < a <= day -> ceil_div a day = 1) /\
  (a = 0 -> ceil_div a day = 0).
Proof.
  unfold ceil_div, day.
  pose proof (Z.div_mod (- a) (1000 * 60 * 60 * 24) ltac:(lia)) as Hdm.
  pose proof (Z.mod_pos_bound (- a) (1000 * 60 * 60 * 24) ltac:(lia)) as Hb.
  repeat split; intros; lia.
Qed.

(** X25: the reply reports endDate and daysBetween as null exactly when
    no end date was given; otherwise daysBetween is positive exactly when
    the end is after the start, any range of up to one day counts as one
    day, an empty range as zero, and a reversed range is not rejected but
    reported with a count that is not positive. *)
Theorem date_range_days :
  forall (s : Z) (endDate : option Z) (now : Z),
    exists data,
      getDateRange (Some s) endDate now
      = Replied (JObj [ ("message", JStr "Date range processed successfully");
                        ("data", data) ]) /\
      get_prop data "startDate" = JStr (toISOString s) /\
      (endDate = None ->
       get_prop data "endDate" = JNull /\ get_prop data "daysBetween" = JNull) /\
      (forall e, endDate = Some e ->
         exists n, get_prop data "daysBetween" = JNum n /\
                   (0 < n <-> s < e) /\
                   (0 < e - s <= day -> n = 1) /\
                   (e = s -> n = 0)).
Proof.
  intros s endDate now. eexists. split; [reflexivity |]. split; [reflexivity |].
  split.
  - intros ->. split; reflexivity.
  - intros e ->. eexists. split; [reflexivity |].
    destruct (ceil_div_day_sign (e - s)) as (H1 & H2 & H3).
    split; [| split].
    + rewrite H1. lia.
    + exact H2.
    + intros ->. apply H3. lia.
Qed.
End DateRangeProperties.


(** ** The command line of the package-manager script *)

Lemma has_flag (flag : string) (args : list string) :
  existsb (String.eqb flag) args = true <-> In flag args.
Proof.
  rewrite existsb_exists. split.
  - intros (x & Hin & Heq). apply String.eqb_eq in Heq. subst x. exact Hin.
  - intros Hin. exists flag. split; [exact Hin | apply String.eqb_refl].
Qed.

Lemma printed_commands_of_detected env script :
  DetectPm.printed (DetectPm.getInstallCommand (DetectPm.pm (DetectPm.detectPackageManager env)))
  = Some (DetectPm.pm (DetectPm.detectPackageManager env) ++ " install") /\
  DetectPm.printed (DetectPm.getRunCommand (DetectPm.pm (DetectPm.detectPackageManager env)) script)
  = Some (if DetectPm.pm (DetectPm.detectPackageManager env) =? "yarn"
          then "yarn " ++ script
          else DetectPm.pm (DetectPm.detectPackageManager env) ++ " run " ++ script).
Proof.
  destruct (detect_known env) as [H | [H | [H | H]]]; rewrite <- H; split; reflexivity.
Qed.

(** X26: the command line always prints a text, whatever its arguments
    and surroundings.  The install flag wins over every other argument;
    without it, the run flag anywhere among the arguments prints the run
    command for whatever stands second on the command line, the run flag
    itself included. *)
Theorem cli_prints_text_and_install_wins :
  forall (args : list string) (env : DetectPm.Environment),
    let detected := DetectPm.detectPackageManager env in
    (exists text, DetectPm.cli args env = Some text) /\
    (In "--install" args ->
     DetectPm.cli args env = Some (DetectPm.pm detected ++ " install")) /\
    (forall script,
        ~ In "--install" args -> In "--run" args ->
        nth_error args 1 = Some script -> script <> "" ->
        DetectPm.cli args env
        = Some (if DetectPm.pm detected =? "yarn" then "yarn " ++ script
                else DetectPm.pm detected ++ " run " ++ script)).
Proof.
  intros args env detected. subst detected.
  destruct (printed_commands_of_detected env (str_or (nth_error args 1) "")) as [Hi Hr].
  unfold DetectPm.cli. cbv zeta.
  destruct (existsb (String.eqb "--install") args) eqn:Hinstall.
  - split; [eexists; exact Hi | split; [intros _; exact Hi |]].
    intros script Hno. exfalso. apply Hno, has_flag, Hinstall.
  - split; [| split].
    + destruct (existsb (String.eqb "--run") args
                && negb (str_or (nth_error args 1) "" =? "")).
      * eexists. exact Hr.
      * destruct (existsb (String.eqb "--pm") args); [eexists; reflexivity |].
        destruct (existsb (String.eqb "--command") args); eexists; reflexivity.
    + intros Hin. apply has_flag in Hin. congruence.
    + intros script _ Hrun Hnth Hne.
      apply has_flag in Hrun. rewrite Hrun, Hnth.
      rewrite Hnth in Hr. rewrite (str_or_some script "" Hne) in *.
      destruct (String.eqb_spec script "") as [|_]; [contradiction |].
      cbn [negb andb]. exact Hr.
Qed.

(** The run flag in second place is taken for the script. *)
Lemma cli_run_flag_example :
  DetectPm.cli ["build"; "--run"] Examples.pnpm_agent = Some "pnpm run --run".
Proof. vm_compute. reflexivity. Qed.

(** ** The logger, as a whole *)

Section LoggerRecords.
Context {RT : JsRuntime}.
Import LoggingInterceptor.

Lemma serve_admitted request handled NODE_ENV now :
  Lifecycle.interceptor_log (Lifecycle.serve None request handled NODE_ENV now)
  = fst (intercept request now handled) /\
  Lifecycle.stream (Lifecycle.serve None request handled NODE_ENV now)
  = Some (snd (intercept request now handled)).
Proof.
  unfold Lifecycle.serve. destruct (intercept request now handled) as [logs out].
  split; reflexivity.
Qed.

(** The failures whose message cannot be read. *)
Lemma message_of_none (e : Thrown) :
  message_of e = None <-> e = ThrownOther JUndefined \/ e = ThrownOther JNull.
Proof.
  split.
  - destruct e as [h|q|x|v]; cbn; try discriminate.
    destruct v; cbn; try discriminate; auto.
  - intros [-> | ->]; reflexivity.
Qed.

(** When the stream fails, the record of the failure is the last one. *)
Lemma tap_failed_last request now values tk e r :
  Forall (fun tv => JSON_stringify (snd tv) <> None) values ->
  on_error request now tk e = inl r ->
  exists ends,
    fst (tap (on_next request now) (on_error request now) values (tk, Failed e))
    = (ends ++ [r])%list /\
    List.length ends = List.length values.
Proof.
  intros Hvalues Hr.
  induction Hvalues as [|[tk0 v0] rest Hv0 _ IH]; cbn [tap].
  - rewrite Hr. exists []. split; reflexivity.
  - cbn [snd] in Hv0. unfold on_next at 1.
    destruct (JSON_stringify v0); [| congruence].
    destruct IH as (ends & Hlogs & Hlen).
    destruct (tap _ _ rest (tk, Failed e)) as [logs out]. cbn [fst] in *. subst logs.
    eexists (_ :: ends). split; [reflexivity | cbn; rewrite Hlen; reflexivity].
Qed.

(** C9, as the code has it.  A request the rate limiter rejects never
    enters the logger: no start and no end record.  For a request it
    admits, the logger emits exactly one start record.  When the validator
    or the handler raises a failure other than undefined or null, the
    logger emits, after one end record for each value emitted before (none
    when the failure comes first, which makes it exactly one end record),
    an end record at error level with the elapsed time, the status code
    (500 when none is set) and the failure's message, and the failure is
    raised again unchanged.  When the handler completes, the logger emits
    one end record for each value, exactly one for a handler that returns
    one value, and passes the values on.  Values are taken to serialise
    to JSON. *)
Theorem C9_logger_records :
  forall (request : Request) (now : Z) (handled : Observable) (NODE_ENV : option string),
    (forall rejection : HttpException,
        Lifecycle.interceptor_log
          (Lifecycle.serve (Some rejection) request handled NODE_ENV now) = [] /\
        Lifecycle.stream
          (Lifecycle.serve (Some rejection) request handled NODE_ENV now) = None) /\
    let served := Lifecycle.serve None request handled NODE_ENV now in
    let log := Lifecycle.interceptor_log served in
    count_records is_start log = 1%nat /\
    (forall tk e,
        terminal handled = (tk, Failed e) ->
        Forall (fun tv => JSON_stringify (snd tv) <> None) (emissions handled) ->
        e <> ThrownOther JUndefined ->
        e <> ThrownOther JNull ->
        exists ends r msg,
          message_of e = Some msg /\
          log = (start_record request now :: ends ++ [r])%list /\
          List.length ends = List.length (emissions handled) /\
          count_records is_end log = (List.length (emissions handled) + 1)%nat /\
          is_end r = true /\
          log_level r = LevelError /\
          get_prop (log_context r) "responseTime" = JNum (tick_now tk - now) /\
          get_prop (log_context r) "statusCode" = JNum (status_or_500 (tick_statusCode tk)) /\
          get_prop (log_context r) "error" = msg /\
          Lifecycle.stream served = Some handled) /\
    (forall ending,
        terminal handled = (ending, Complete) ->
        Forall (fun tv => JSON_stringify (snd tv) <> None) (emissions handled) ->
        count_records is_end log = List.length (emissions handled) /\
        Lifecycle.stream served = Some handled) /\
    (status_or_500 None = 500 /\ status_or_500 (Some 0) = 500 /\
     forall c, c <> 0 -> status_or_500 (Some c) = c).
Proof.
  intros request now handled NODE_ENV.
  split; [intros rejection; split; reflexivity |].
  intros served log. subst served log.
  destruct (serve_admitted request handled NODE_ENV now) as [Hlog Hstream].
  rewrite Hlog, Hstream.
  split; [apply intercept_one_start | split; [| split]].
  - intros tk e Hterm Hvalues Hundef Hnull.
    destruct (message_of e) as [msg|] eqn:Hmsg;
      [| apply message_of_none in Hmsg; tauto].
    assert (Hending : forall e', snd (terminal handled) = Failed e' -> message_of e' <> None).
    { intros e' He'. rewrite Hterm in He'. cbn in He'. injection He' as <-. congruence. }
    destruct (interceptor_passes request now handled Hvalues Hending) as [Hout Hcount].
    assert (Hr : exists r, on_error request now tk e = inl r /\
                           is_end r = true /\ log_level r = LevelError /\
                           get_prop (log_context r) "responseTime" = JNum (tick_now tk - now) /\
                           get_prop (log_context r) "statusCode"
                             = JNum (status_or_500 (tick_statusCode tk)) /\
                           get_prop (log_context r) "error" = msg).
    { unfold on_error. rewrite Hmsg. eexists. repeat split. }
    destruct Hr as (r & Hr & Hend & Hlevel & Htime & Hstatus & Herror).
    destruct (tap_failed_last request now (emissions handled) tk e r Hvalues Hr)
      as (ends & Hlogs & Hlen).
    exists ends, r, msg.
    split; [reflexivity |]. split.
    { unfold intercept. rewrite Hterm.
      destruct (tap _ _ (emissions handled) (tk, Failed e)) as [logs out].
      cbn [fst] in *. rewrite Hlogs. reflexivity. }
    split; [exact Hlen |]. split.
    { rewrite Hcount, Hterm. reflexivity. }
    repeat (split; [assumption |]). rewrite Hout. reflexivity.
  - intros ending Hterm Hvalues.
    assert (Hending : forall e', snd (terminal handled) = Failed e' -> message_of e' <> None).
    { intros e' He'. rewrite Hterm in He'. discriminate. }
    destruct (interceptor_passes request now handled Hvalues Hending) as [Hout Hcount].
    rewrite Hcount, Hterm, Hout. cbn. split; [lia | reflexivity].
  - split; [reflexivity | split; [reflexivity |]].
    intros c Hc. unfold status_or_500, num_or.
    destruct (Z.eqb_spec c 0); [contradiction | reflexivity].
Qed.
End LoggerRecords.

(** A handler that throws an error after 5 ms: exactly one end record. *)
Lemma C9_witness :
  LoggingInterceptor.count_records LoggingInterceptor.is_end
    (Lifecycle.interceptor_log
       (Lifecycle.serve (RT := Fixtures.runtime) None Fixtures.health_request
          (Fixtures.handler_throws (ThrownError (mkError "Error" "boom" None)) None)
          None 0)) = 1%nat.
Proof.
  destruct (proj1 (proj2 (proj2 (C9_logger_records (RT := Fixtures.runtime)
                            Fixtures.health_request 0
                            (Fixtures.handler_throws (ThrownError (mkError "Error" "boom" None)) None)
                            None)))
              {| tick_now := 5; tick_statusCode := None |}
              (ThrownError (mkError "Error" "boom" None))
              eq_refl (Forall_nil _))
    as (ends & r & msg & _ & _ & _ & Hcount & _).
  - discriminate.
  - discriminate.
  - exact Hcount.
Defined.
